(** * cf_ai_finsight: the UserSession Durable Object and the briefing workflow

    A shallow embedding of
      - src/UserSession.ts        (module [Worker]: the Durable Object),
      - src/BriefingWorkflow.ts   (module [Worker]: step 3 of the workflow),
      - src/index.ts              (module [Router]: the workflow-status route),
      - backend/src/objects/UserSession.ts and
        backend/src/workflows/BriefingWorkflow.ts (module [Backend]),
    together with the properties of the specification that concern them.

    Conventions.
      - A JavaScript string is the list of its UTF-16 code units.
      - [new Date().toISOString()] is kept as the time value it renders
        (milliseconds since the epoch); the rendering is injective and, for
        four-digit years, order preserving.
      - A JavaScript [number] of the financial profile is an integer.
      - Asynchronous code is sequential code in a state-and-exception monad
        over the object's fields, its storage and a log of the calls it makes
        to its collaborators.  A thrown exception keeps the mutations made
        before it, as in JavaScript.
      - The collaborators (the clock, the AI binding, storage faults) are
        oracles indexed by the number of calls made so far. *)

From Stdlib Require Import String Ascii DecimalString ZArith NArith Bool Lia QArith List.
From Stdlib Require Import Qround Permutation.
Import ListNotations.

Open Scope Z_scope.
Open Scope list_scope.

(* ------------------------------------------------------------------------- *)
(** ** JavaScript strings *)

Definition jsstring := list N.

(** An ASCII literal as a JavaScript string. *)
Definition js (s : string) : jsstring := map N_of_ascii (list_ascii_of_string s).

(** ECMAScript WhiteSpace and LineTerminator code units, the ones
    [String.prototype.trim] strips. *)
Definition isWhiteSpace (c : N) : bool :=
  ((9 <=? c) && (c <=? 13) || (c =? 32) || (c =? 160) || (c =? 5760)
   || (8192 <=? c) && (c <=? 8202) || (c =? 8232) || (c =? 8233)
   || (c =? 8239) || (c =? 8287) || (c =? 12288) || (c =? 65279))%N.

Fixpoint trimStart (s : jsstring) : jsstring :=
  match s with
  | c :: r => if isWhiteSpace c then trimStart r else s
  | [] => []
  end.

Definition trimEnd (s : jsstring) : jsstring := rev (trimStart (rev s)).

Definition trim (s : jsstring) : jsstring := trimEnd (trimStart s).

(** [Array.prototype.join] on an array of strings. *)
Fixpoint join (sep : jsstring) (l : list jsstring) : jsstring :=
  match l with
  | [] => []
  | x :: r => match r with [] => x | _ :: _ => x ++ sep ++ join sep r end
  end.

(** [String(n)] for an integer [n]. *)
Definition numberToString (n : Z) : jsstring := js (NilZero.string_of_int (Z.to_int n)).

(** [arr.slice(-n)]: the last [n] elements, all of them when there are fewer. *)
Definition slice_last {A} (n : nat) (l : list A) : list A :=
  skipn (length l - n) l.

(** Truthiness of the values the code tests. *)
Definition truthy_number (n : Z) : bool := negb (n =? 0).

Definition truthy_string (s : jsstring) : bool :=
  match s with [] => false | _ :: _ => true end.

(** [a || b] on strings, [a] possibly undefined. *)
Definition or_string (a : option jsstring) (b : jsstring) : jsstring :=
  match a with
  | Some s => if truthy_string s then s else b
  | None => b
  end.

Definition LF : jsstring := [10%N].

(* ------------------------------------------------------------------------- *)
(** ** Data shared by the two implementations *)

Inductive Role := system | user | assistant.

Record ChatMessage := mkChatMessage
  { role : Role; content : jsstring; timestamp : Z }.

(** An element of the [messages] array handed to the model. *)
Record AiMessage := mkAiMessage { ai_role : Role; ai_content : jsstring }.

Record AiCall := mkAiCall
  { model : string; messages : list AiMessage; max_tokens : Z; temperature : Q }.

(** What [env.AI.run] resolves to: an object with a [response] key (a string
    or undefined) or an object without that key (a stream). *)
Inductive AiResponse :=
| AiText (response : option jsstring)
| AiStream.

Inductive AiResult :=
| AiResolves (r : AiResponse)
| AiRejects.

Inductive Error :=
| StorageError | InferenceError | SyntaxError | StepError | InstanceNotFound
| StatusUnavailable.

Inductive Outcome (A : Type) :=
| Returned (a : A)
| Thrown (e : Error).
Arguments Returned {A} a.
Arguments Thrown {A} e.

Inductive StorageOp := Get (key : string) | Put (key : string).

(** The collaborators: the outcome of the n-th call to the model, the n-th
    reading of the clock, and whether the n-th storage operation throws. *)
Record Env := mkEnv
  { AI_run : nat -> AiCall -> AiResult;
    Date_now : nat -> Z;
    storage_fails : nat -> bool }.

Definition reliable (E : Env) : Prop := forall n, storage_fails E n = false.

Definition monotone_clock (E : Env) : Prop :=
  forall n, Date_now E n <= Date_now E (S n).

Definition llama : string := "@cf/meta/llama-3.3-70b-instruct-fp8-fast".

(** The [FinancialProfile] interface: every field optional. *)
Record FinancialProfile := mkProfile
  { monthlyIncome : option Z;
    totalDebt : option Z;
    savingsGoal : option Z;
    emergencyFund : option Z;
    financialGoals : option (list jsstring);
    lastUpdated : option Z }.

(** The object literal [{}]. *)
Definition emptyProfile : FinancialProfile :=
  mkProfile None None None None None None.

(** The bodies of the responses the handlers build. *)
Inductive ResponseBody :=
| ErrorJson (error : string)
| ChatJson (message : jsstring) (time : Z)
| HistoryJson (history : list ChatMessage)
| ProfileJson (profile : FinancialProfile)
| ProfileSavedJson (profile : FinancialProfile)
| SuccessJson (message : string)
| OkJson
| Text (s : string).

Record Response := mkResponse { status : Z; payload : ResponseBody }.

(** The reads among the operations of a storage log. *)
Definition is_get (op : StorageOp) : bool :=
  match op with Get _ => true | Put _ => false end.

(* ------------------------------------------------------------------------- *)
(** ** The monad of the handlers

    A computation takes the world to an outcome and a world.  Unlike a state
    transformer over an error monad, an exception does not discard the state. *)

Definition M (W A : Type) : Type := W -> Outcome A * W.

Definition ret {W A} (a : A) : M W A := fun w => (Returned a, w).

Definition bind {W A B} (m : M W A) (k : A -> M W B) : M W B :=
  fun w => match m w with
           | (Returned a, w') => k a w'
           | (Thrown e, w') => (Thrown e, w')
           end.

Definition throw {W A} (e : Error) : M W A := fun w => (Thrown e, w).

(** [try { body } catch (error) { handler }] *)
Definition try_catch {W A} (body : M W A) (handler : Error -> M W A) : M W A :=
  fun w => match body w with
           | (Returned a, w') => (Returned a, w')
           | (Thrown e, w') => handler e w'
           end.

Definition gets {W A} (f : W -> A) : M W A := fun w => (Returned (f w), w).

Definition modify {W} (f : W -> W) : M W unit := fun w => (Returned tt, f w).

Declare Scope js_scope.
Delimit Scope js_scope with js.
Notation "x <- c ;; k" := (bind c (fun x => k))
  (at level 61, c at next level, right associativity) : js_scope.
Notation "c ;; k" := (bind c (fun _ => k))
  (at level 61, right associativity) : js_scope.
Open Scope js_scope.

(** The state a computation leaves and the value it returns. *)
Definition after {W A} (m : M W A) (w : W) : W := snd (m w).
Definition outcome {W A} (m : M W A) (w : W) : Outcome A := fst (m w).

(* ------------------------------------------------------------------------- *)
(** ** src/UserSession.ts and src/BriefingWorkflow.ts *)

Module Worker.

(** The fields of the object, its storage, and the calls made so far. *)
Record Storage := mkStorage
  { stored_chatHistory : option (list ChatMessage);
    stored_financialProfile : option FinancialProfile }.

Record World := mkWorld
  { chatHistory : list ChatMessage;
    financialProfile : FinancialProfile;
    initialized : bool;
    storage : Storage;
    clockReads : nat;
    storageLog : list StorageOp;
    aiLog : list AiCall }.

(** A freshly constructed object over a given storage: the field initialisers
    of the class. *)
Definition construct (st : Storage) : World :=
  mkWorld [] emptyProfile false st 0 [] [].

Definition set_chatHistory (h : list ChatMessage) (w : World) : World :=
  mkWorld h (financialProfile w) (initialized w) (storage w)
          (clockReads w) (storageLog w) (aiLog w).

Definition set_financialProfile (p : FinancialProfile) (w : World) : World :=
  mkWorld (chatHistory w) p (initialized w) (storage w)
          (clockReads w) (storageLog w) (aiLog w).

Definition set_initialized (b : bool) (w : World) : World :=
  mkWorld (chatHistory w) (financialProfile w) b (storage w)
          (clockReads w) (storageLog w) (aiLog w).

Definition set_storage (st : Storage) (w : World) : World :=
  mkWorld (chatHistory w) (financialProfile w) (initialized w) st
          (clockReads w) (storageLog w) (aiLog w).

Definition tick (w : World) : World :=
  mkWorld (chatHistory w) (financialProfile w) (initialized w) (storage w)
          (S (clockReads w)) (storageLog w) (aiLog w).

Definition log_storage (op : StorageOp) (w : World) : World :=
  mkWorld (chatHistory w) (financialProfile w) (initialized w) (storage w)
          (clockReads w) (storageLog w ++ [op]) (aiLog w).

Definition log_ai (c : AiCall) (w : World) : World :=
  mkWorld (chatHistory w) (financialProfile w) (initialized w) (storage w)
          (clockReads w) (storageLog w) (aiLog w ++ [c]).

(** The body of a request as the handlers read it: [request.json()] cast to
    the shape each handler expects.  [idempotencyKey] stands for a key a
    caller may send along; no handler reads it. *)
Record Body := mkBody
  { message : option jsstring;
    briefing : option jsstring;
    idempotencyKey : option jsstring;
    updates : FinancialProfile }.

(** [body = None]: the request carries no JSON. *)
Record Request := mkRequest
  { method : string; pathname : string; body : option Body }.

Section Handlers.

Variable E : Env.

(** *** The collaborators *)

(** Every storage operation is logged; the oracle says whether it throws. *)
Definition storage_op (op : StorageOp) : M World unit :=
  fun w => if storage_fails E (length (storageLog w))
           then (Thrown StorageError, log_storage op w)
           else (Returned tt, log_storage op w).

Definition storage_get_chatHistory : M World (option (list ChatMessage)) :=
  storage_op (Get "chatHistory") ;;
  gets (fun w => stored_chatHistory (storage w)).

Definition storage_get_financialProfile : M World (option FinancialProfile) :=
  storage_op (Get "financialProfile") ;;
  gets (fun w => stored_financialProfile (storage w)).

Definition storage_put_chatHistory (h : list ChatMessage) : M World unit :=
  storage_op (Put "chatHistory") ;;
  modify (fun w =>
    set_storage (mkStorage (Some h) (stored_financialProfile (storage w))) w).

Definition storage_put_financialProfile (p : FinancialProfile) : M World unit :=
  storage_op (Put "financialProfile") ;;
  modify (fun w =>
    set_storage (mkStorage (stored_chatHistory (storage w)) (Some p)) w).

(** [new Date().toISOString()] *)
Definition new_Date : M World Z :=
  fun w => (Returned (Date_now E (clockReads w)), tick w).

(** [env.AI.run(model, params)] *)
Definition AI (c : AiCall) : M World AiResponse :=
  fun w => match AI_run E (length (aiLog w)) c with
           | AiResolves r => (Returned r, log_ai c w)
           | AiRejects => (Thrown InferenceError, log_ai c w)
           end.

Definition request_json (request : Request) : M World Body :=
  match body request with
  | Some b => ret b
  | None => throw SyntaxError
  end.

(** *** The prompt *)

Definition SYSTEM_PROMPT : jsstring :=
  js "You are FinSight, a friendly and knowledgeable financial literacy coach designed specifically for students. Your role is to:"
  ++ LF ++ LF ++
  js "1. Help students understand personal finance concepts in simple terms"
  ++ LF ++
  js "2. Provide actionable advice tailored to a student's limited budget"
  ++ LF ++
  js "3. Encourage healthy financial habits like budgeting, saving, and avoiding unnecessary debt"
  ++ LF ++
  js "4. Explain complex topics like credit scores, student loans, and compound interest"
  ++ LF ++
  js "5. Be supportive and non-judgmental about financial mistakes"
  ++ LF ++ LF ++
  js "Always be encouraging, use relatable examples, and break down complex concepts. Remember that students often have limited income and are just starting their financial journey."
  ++ LF ++ LF ++
  js "When the user shares financial information, acknowledge it and provide relevant advice. Keep responses concise but helpful.".

(** [Object.keys(profile)], in the order of the interface. *)
Definition Object_keys (p : FinancialProfile) : list string :=
  let key {A} (o : option A) (k : string) :=
    match o with Some _ => [k] | None => [] end in
  key (monthlyIncome p) "monthlyIncome"%string
  ++ key (totalDebt p) "totalDebt"%string
  ++ key (savingsGoal p) "savingsGoal"%string
  ++ key (emergencyFund p) "emergencyFund"%string
  ++ key (financialGoals p) "financialGoals"%string
  ++ key (lastUpdated p) "lastUpdated"%string.

(** [field ? `$${field}` : 'Not set'] *)
Definition dollars (field : option Z) : jsstring :=
  match field with
  | Some n => if truthy_number n then js "$" ++ numberToString n else js "Not set"
  | None => js "Not set"
  end.

(** [financialGoals?.join(', ') || 'Not set'] *)
Definition goals (field : option (list jsstring)) : jsstring :=
  or_string (option_map (join (js ", ")) field) (js "Not set").

(** The text appended to the system prompt for a non-empty profile. *)
Definition profileSummary (p : FinancialProfile) : jsstring :=
  LF ++ LF ++ js "User's Financial Profile:" ++ LF ++
  js "- Monthly Income: " ++ dollars (monthlyIncome p) ++ LF ++
  js "- Total Debt: " ++ dollars (totalDebt p) ++ LF ++
  js "- Savings Goal: " ++ dollars (savingsGoal p) ++ LF ++
  js "- Emergency Fund: " ++ dollars (emergencyFund p) ++ LF ++
  js "- Financial Goals: " ++ goals (financialGoals p).

Definition contextualSystemPrompt (p : FinancialProfile) : jsstring :=
  if (0 <? length (Object_keys p))%nat
  then SYSTEM_PROMPT ++ profileSummary p
  else SYSTEM_PROMPT.

(** *** The private methods *)

(** [initialize()]: [storedHistory || []] and [storedProfile || {}]. *)
Definition initialize : M World unit :=
  done <- gets initialized ;;
  if done then ret tt
  else
    storedHistory <- storage_get_chatHistory ;;
    storedProfile <- storage_get_financialProfile ;;
    modify (set_chatHistory
              (match storedHistory with Some h => h | None => [] end)) ;;
    modify (set_financialProfile
              (match storedProfile with Some p => p | None => emptyProfile end)) ;;
    modify (set_initialized true).

Definition saveState : M World unit :=
  h <- gets chatHistory ;;
  storage_put_chatHistory h ;;
  p <- gets financialProfile ;;
  storage_put_financialProfile p.

(** [this.chatHistory.push(msg)] *)
Definition push (msg : ChatMessage) : M World unit :=
  modify (fun w => set_chatHistory (chatHistory w ++ [msg]) w).

(** ['response' in aiResponse ? aiResponse.response : '...'] *)
Definition assistantContent (aiResponse : AiResponse) : option jsstring :=
  match aiResponse with
  | AiText response => response
  | AiStream =>
      Some (js "I apologize, but I encountered an issue generating a response. Please try again.")
  end.

Definition handleChat (request : Request) : M World Response :=
  b <- request_json request ;;
  match option_map trim (message b) with
  | None | Some [] => ret (mkResponse 400 (ErrorJson "Message is required"))
  | Some userMessage =>
      t <- new_Date ;;
      let userChatMessage := mkChatMessage user userMessage t in
      push userChatMessage ;;
      profile <- gets financialProfile ;;
      history <- gets chatHistory ;;
      let recentHistory := slice_last 20 history in
      let messages :=
        mkAiMessage system (contextualSystemPrompt profile)
        :: map (fun msg => mkAiMessage (role msg) (content msg)) recentHistory in
      aiResponse <- AI (mkAiCall llama messages 1024 (7 # 10)) ;;
      t' <- new_Date ;;
      let assistantMessage :=
        mkChatMessage assistant
          (or_string (assistantContent aiResponse) (js "No response generated")) t' in
      push assistantMessage ;;
      saveState ;;
      ret (mkResponse 200 (ChatJson (content assistantMessage)
                                    (timestamp assistantMessage)))
  end.

Definition getHistory : M World Response :=
  h <- gets chatHistory ;;
  ret (mkResponse 200 (HistoryJson h)).

(** [{ ...base, ...over }] on profiles. *)
Definition spread (base over : FinancialProfile) : FinancialProfile :=
  let pick {A} (o b : option A) := match o with Some v => Some v | None => b end in
  mkProfile (pick (monthlyIncome over) (monthlyIncome base))
            (pick (totalDebt over) (totalDebt base))
            (pick (savingsGoal over) (savingsGoal base))
            (pick (emergencyFund over) (emergencyFund base))
            (pick (financialGoals over) (financialGoals base))
            (pick (lastUpdated over) (lastUpdated base)).

(** [{ ...p, lastUpdated: t }] *)
Definition with_lastUpdated (t : Z) (p : FinancialProfile) : FinancialProfile :=
  mkProfile (monthlyIncome p) (totalDebt p) (savingsGoal p) (emergencyFund p)
            (financialGoals p) (Some t).

Definition updateProfile (request : Request) : M World Response :=
  b <- request_json request ;;
  profile <- gets financialProfile ;;
  t <- new_Date ;;
  modify (set_financialProfile (with_lastUpdated t (spread profile (updates b)))) ;;
  saveState ;;
  p <- gets financialProfile ;;
  ret (mkResponse 200 (ProfileSavedJson p)).

Definition getProfile : M World Response :=
  p <- gets financialProfile ;;
  ret (mkResponse 200 (ProfileJson p)).

(** The marker put before an injected briefing: the chart emoji (a surrogate
    pair), the heading and two line feeds. *)
Definition briefingMarker : jsstring :=
  [55357%N; 56522%N] ++ js " **Daily Financial Briefing**" ++ LF ++ LF.

Definition injectBriefing (request : Request) : M World Response :=
  b <- request_json request ;;
  match briefing b with
  | None | Some [] =>
      ret (mkResponse 400 (ErrorJson "Briefing content is required"))
  | Some briefingContent =>
      t <- new_Date ;;
      push (mkChatMessage assistant (briefingMarker ++ briefingContent) t) ;;
      saveState ;;
      ret (mkResponse 200 (SuccessJson "Briefing injected successfully"))
  end.

Definition clearHistory : M World Response :=
  modify (set_chatHistory []) ;;
  saveState ;;
  ret (mkResponse 200 (SuccessJson "History cleared")).

(** *** The fetch handler *)

Definition route (request : Request) (m p : string) : bool :=
  String.eqb (method request) m && String.eqb (pathname request) p.

Definition dispatch (request : Request) : M World Response :=
  if route request "POST" "/chat" then handleChat request
  else if route request "GET" "/history" then getHistory
  else if route request "POST" "/profile" then updateProfile request
  else if route request "GET" "/profile" then getProfile
  else if route request "POST" "/inject-briefing" then injectBriefing request
  else if route request "POST" "/clear" then clearHistory
  else ret (mkResponse 404 (Text "Not Found")).

Definition fetch (request : Request) : M World Response :=
  initialize ;;
  try_catch (dispatch request)
    (fun _ => ret (mkResponse 500 (ErrorJson "Internal server error"))).

(** *** The operations of the actor, as requests *)

Definition sendMessage (text : jsstring) : Request :=
  mkRequest "POST" "/chat" (Some (mkBody (Some text) None None emptyProfile)).

Definition getHistoryRequest : Request := mkRequest "GET" "/history" None.

Definition updateProfileRequest (fields : FinancialProfile) : Request :=
  mkRequest "POST" "/profile" (Some (mkBody None None None fields)).

Definition getProfileRequest : Request := mkRequest "GET" "/profile" None.

(** An injection request; [key] is the idempotency key of the caller, if any. *)
Definition injectBriefingRequest (text : jsstring) (key : option jsstring) : Request :=
  mkRequest "POST" "/inject-briefing" (Some (mkBody None (Some text) key emptyProfile)).

Definition clear : Request := mkRequest "POST" "/clear" None.

(** *** src/BriefingWorkflow.ts (the workflow src/index.ts exports), the body
        of step 'inject-briefing-to-chat' *)

(** [response.ok] *)
Definition ok (r : Response) : bool := (200 <=? status r) && (status r <=? 299).

Definition inject_briefing_to_chat (studentSummary : jsstring) : M World ResponseBody :=
  response <- fetch (mkRequest "POST" "/inject-briefing"
                       (Some (mkBody None (Some studentSummary) None emptyProfile))) ;;
  if negb (ok response) then throw StepError
  else ret (payload response).

End Handlers.

(** The world a successful [initialize] leaves: unchanged when the object is
    initialized, and otherwise the stored state read into the fields. *)
Definition loaded (w : World) : World :=
  if initialized w then w
  else mkWorld
         (match stored_chatHistory (storage w) with Some h => h | None => [] end)
         (match stored_financialProfile (storage w) with
          | Some p => p | None => emptyProfile end)
         true (storage w) (clockReads w)
         (storageLog w ++ [Get "chatHistory"; Get "financialProfile"])
         (aiLog w).

(** The world a successful [saveState] leaves. *)
Definition saved (w : World) : World :=
  mkWorld (chatHistory w) (financialProfile w) (initialized w)
          (mkStorage (Some (chatHistory w)) (Some (financialProfile w)))
          (clockReads w)
          (storageLog w ++ [Put "chatHistory"; Put "financialProfile"])
          (aiLog w).

(** The user message [handleChat] appends and the call it makes. *)
Definition userTurn (E : Env) (userMessage : jsstring) (w : World) : ChatMessage :=
  mkChatMessage user userMessage (Date_now E (clockReads w)).

Definition chatCall (E : Env) (userMessage : jsstring) (w : World) : AiCall :=
  mkAiCall llama
    (mkAiMessage system (contextualSystemPrompt (financialProfile w))
     :: map (fun msg => mkAiMessage (role msg) (content msg))
            (slice_last 20 (chatHistory w ++ [userTurn E userMessage w])))
    1024 (7 # 10).

Definition assistantTurn (E : Env) (r : AiResponse) (w : World) : ChatMessage :=
  mkChatMessage assistant
    (or_string (assistantContent r) (js "No response generated"))
    (Date_now E (S (clockReads w))).



(** A computation that never changes the [initialized] flag. *)
Definition keeps_flag {A} (m : M World A) : Prop :=
  forall w, initialized (snd (m w)) = initialized w.

(** Serving a list of requests one after the other, whatever each answers. *)
Fixpoint serve (E : Env) (requests : list Request) (w : World) : World :=
  match requests with
  | [] => w
  | r :: rest => serve E rest (after (fetch E r) w)
  end.

End Worker.

(* ------------------------------------------------------------------------- *)
(** ** backend/src/objects/UserSession.ts, backend/src/utils/llm.ts and
       backend/src/workflows/BriefingWorkflow.ts *)

Module Backend.

Record World := mkWorld
  { history : list ChatMessage;
    stored_history : option (list ChatMessage);
    clockReads : nat;
    storageLog : list StorageOp;
    aiLog : list AiCall }.

(** A freshly constructed object over a given storage. *)
Definition construct (st : option (list ChatMessage)) : World :=
  mkWorld [] st 0 [] [].

Definition set_history (h : list ChatMessage) (w : World) : World :=
  mkWorld h (stored_history w) (clockReads w) (storageLog w) (aiLog w).

Definition set_stored_history (h : list ChatMessage) (w : World) : World :=
  mkWorld (history w) (Some h) (clockReads w) (storageLog w) (aiLog w).

Definition tick (w : World) : World :=
  mkWorld (history w) (stored_history w) (S (clockReads w)) (storageLog w) (aiLog w).

Definition log_storage (op : StorageOp) (w : World) : World :=
  mkWorld (history w) (stored_history w) (clockReads w) (storageLog w ++ [op]) (aiLog w).

Definition log_ai (c : AiCall) (w : World) : World :=
  mkWorld (history w) (stored_history w) (clockReads w) (storageLog w) (aiLog w ++ [c]).

(** A JSON body with the string fields the handlers destructure. *)
Record Body := mkBody { message : jsstring; text : jsstring }.

Record Request := mkRequest
  { method : string; pathname : string; body : option Body }.

Section Handlers.

Variable E : Env.

Definition storage_op (op : StorageOp) : M World unit :=
  fun w => if storage_fails E (length (storageLog w))
           then (Thrown StorageError, log_storage op w)
           else (Returned tt, log_storage op w).

Definition storage_get_history : M World (option (list ChatMessage)) :=
  storage_op (Get "history") ;; gets stored_history.

Definition storage_put_history (h : list ChatMessage) : M World unit :=
  storage_op (Put "history") ;; modify (set_stored_history h).

Definition new_Date : M World Z :=
  fun w => (Returned (Date_now E (clockReads w)), tick w).

(** [runLLM(env, messages, max_tokens = 512, temperature = 0.7)] *)
Definition runLLM (messages : list AiMessage) (max_tokens : Z) : M World AiResponse :=
  let c := mkAiCall llama messages max_tokens (7 # 10) in
  fun w => match AI_run E (length (aiLog w)) c with
           | AiResolves r => (Returned r, log_ai c w)
           | AiRejects => (Thrown InferenceError, log_ai c w)
           end.

(** [aiResp.response] *)
Definition response_of (r : AiResponse) : option jsstring :=
  match r with AiText response => response | AiStream => None end.

Definition request_json (request : Request) : M World Body :=
  match body request with
  | Some b => ret b
  | None => throw SyntaxError
  end.

Definition initialize : M World unit :=
  h <- gets history ;;
  if (length h =? 0)%nat
  then
    stored <- storage_get_history ;;
    modify (set_history (match stored with Some h' => h' | None => [] end))
  else ret tt.

Definition push (msg : ChatMessage) : M World unit :=
  modify (fun w => set_history (history w ++ [msg]) w).

Definition systemPrompt : jsstring :=
  js "You are a financial coach for students. Give clear, actionable, and encouraging advice.".

(** The chart emoji and the heading put before an injected briefing. *)
Definition briefingMarker : jsstring :=
  [55357%N; 56522%N] ++ js " Morning Briefing: ".

Definition route (request : Request) (m p : string) : bool :=
  String.eqb (method request) m && String.eqb (pathname request) p.

Definition fetch (request : Request) : M World Response :=
  initialize ;;
  if route request "POST" "/chat" then
    b <- request_json request ;;
    t <- new_Date ;;
    push (mkChatMessage user (message b) t) ;;
    h <- gets history ;;
    let messages :=
      mkAiMessage system systemPrompt
      :: map (fun msg => mkAiMessage (role msg) (content msg)) (slice_last 20 h) in
    aiResp <- runLLM messages 512 ;;
    t' <- new_Date ;;
    let assistantMsg :=
      mkChatMessage assistant
        (or_string (response_of aiResp) (js "Sorry, I could not generate a response.")) t' in
    push assistantMsg ;;
    h' <- gets history ;;
    storage_put_history h' ;;
    ret (mkResponse 200 (ChatJson (content assistantMsg) (timestamp assistantMsg)))
  else if route request "GET" "/history" then
    h <- gets history ;;
    ret (mkResponse 200 (HistoryJson h))
  else if route request "POST" "/injectBriefing" then
    b <- request_json request ;;
    t <- new_Date ;;
    push (mkChatMessage assistant (briefingMarker ++ text b) t) ;;
    h <- gets history ;;
    storage_put_history h ;;
    ret (mkResponse 200 OkJson)
  else ret (mkResponse 404 (Text "Not found")).

Definition sendMessage (t : jsstring) : Request :=
  mkRequest "POST" "/chat" (Some (mkBody t [])).

Definition getHistoryRequest : Request := mkRequest "GET" "/history" None.

(** *** backend/src/workflows/BriefingWorkflow.ts, the body of step
        'inject-briefing' *)

Definition inject_briefing (summary : jsstring) : M World bool :=
  fetch (mkRequest "POST" "/injectBriefing" (Some (mkBody [] summary))) ;;
  ret true.

End Handlers.

(** The world a successful [initialize] leaves. *)
Definition loaded (w : World) : World :=
  if (length (history w) =? 0)%nat
  then set_history (match stored_history w with Some h => h | None => [] end)
                   (log_storage (Get "history") w)
  else w.

(** The user message a chat request appends and the call it makes. *)
Definition userTurn (E : Env) (t : jsstring) (w : World) : ChatMessage :=
  mkChatMessage user t (Date_now E (clockReads w)).

Definition chatCall (E : Env) (t : jsstring) (w : World) : AiCall :=
  mkAiCall llama
    (mkAiMessage system systemPrompt
     :: map (fun msg => mkAiMessage (role msg) (content msg))
            (slice_last 20 (history w ++ [userTurn E t w])))
    512 (7 # 10).

Definition assistantTurn (E : Env) (r : AiResponse) (w : World) : ChatMessage :=
  mkChatMessage assistant
    (or_string (response_of r) (js "Sorry, I could not generate a response."))
    (Date_now E (S (clockReads w))).

(** The briefing message an injection appends. *)
Definition briefingTurn (E : Env) (t : jsstring) (w : World) : ChatMessage :=
  mkChatMessage assistant (briefingMarker ++ t) (Date_now E (clockReads w)).

Fixpoint serve (E : Env) (requests : list Request) (w : World) : World :=
  match requests with
  | [] => w
  | r :: rest => serve E rest (after (fetch E r) w)
  end.

End Backend.

(* ------------------------------------------------------------------------- *)
(** ** src/index.ts: GET /api/workflow-status/:instanceId *)

Module Router.

(** What [instance.status()] resolves to. *)
Record InstanceStatus := mkStatus
  { st_status : string; st_output : option jsstring; st_error : option jsstring }.

(** A handle on an instance, given by what its [status()] does: it resolves
    to a status, or rejects ([None]). *)
Definition WorkflowInstance := option InstanceStatus.

(** The [BRIEFING_WORKFLOW] binding of the platform: [get(id)] resolves to a
    handle on the instance with that id and rejects when there is none. *)
Definition Workflow := jsstring -> option WorkflowInstance.

Inductive StatusBody :=
| StatusJson (instanceId : jsstring) (st : string)
             (output : option jsstring) (error : option jsstring)
| StatusFailureJson (error : string).

Record StatusResponse := mkStatusResponse { code : Z; json : StatusBody }.

(** [await c.env.BRIEFING_WORKFLOW.get(instanceId)] *)
Definition workflow_get (W : Workflow) (id : jsstring) : M unit WorkflowInstance :=
  match W id with
  | Some instance => ret instance
  | None => throw InstanceNotFound
  end.

(** [await instance.status()] *)
Definition instance_status (instance : WorkflowInstance) : M unit InstanceStatus :=
  match instance with
  | Some st => ret st
  | None => throw StatusUnavailable
  end.

(** The one answer of the catch block. *)
Definition statusFailure : StatusResponse :=
  mkStatusResponse 500 (StatusFailureJson "Failed to get workflow status").

Definition workflow_status (W : Workflow) (instanceId : jsstring) : M unit StatusResponse :=
  try_catch
    (instance <- workflow_get W instanceId ;;
     st <- instance_status instance ;;
     ret (mkStatusResponse 200
            (StatusJson instanceId (st_status st) (st_output st) (st_error st))))
    (fun _ => ret statusFailure).

End Router.

(* ------------------------------------------------------------------------- *)
(** ** src/BriefingWorkflow.ts: the steps of the workflow and its run

    The workflow calls the same AI binding and reads the same clock as the
    object, so its calls are logged in the world of the object it injects
    into.  [step.do(name, body)] is the body run once: the retries the
    platform makes when a body throws are not part of the class. *)

Module Briefing.

Record FinancialNews := mkNews
  { headline : jsstring;
    summary : jsstring;
    category : jsstring;
    relevanceToStudents : jsstring }.

Definition mockNews : list FinancialNews :=
  [ mkNews (js "Federal Reserve Holds Interest Rates Steady")
           (js "The Federal Reserve announced it will maintain current interest rates, citing stable inflation and employment figures.")
           (js "Interest Rates")
           (js "This affects student loan interest rates and savings account yields.");
    mkNews (js "Entry-Level Job Market Shows Strong Growth")
           (js "The Bureau of Labor Statistics reports a 5% increase in entry-level positions, particularly in technology and healthcare sectors.")
           (js "Employment")
           (js "Good news for graduating students entering the workforce.");
    mkNews (js "Average Rent Prices Stabilize in College Towns")
           (js "After two years of increases, rental prices in major college towns have plateaued, according to a new housing report.")
           (js "Housing")
           (js "Rent costs are a major expense for students living off-campus.");
    mkNews (js "New Student Loan Forgiveness Program Announced")
           (js "The Department of Education unveiled a new income-driven repayment plan that could reduce monthly payments for recent graduates.")
           (js "Student Loans")
           (js "Directly impacts students with federal student loans.") ].

(** Step 'fetch-financial-news'.  [shuffled] is what
    [mockNews.sort(() => Math.random() - 0.5)] leaves, [random] the value of
    the second [Math.random()]:
    [shuffled.slice(0, Math.floor(random * 2) + 2)]. *)
Definition fetch_financial_news (shuffled : list FinancialNews) (random : Q)
  : list FinancialNews :=
  firstn (Z.to_nat (Qfloor (random * 2) + 2)) shuffled.

(** [arr.map((x, i) => f(x, i))] *)
Fixpoint map_index {A B} (f : A -> nat -> B) (i : nat) (l : list A) : list B :=
  match l with
  | [] => []
  | x :: r => f x i :: map_index f (S i) r
  end.

(** One entry of the news context. *)
Definition newsEntry (news : FinancialNews) (i : nat) : jsstring :=
  numberToString (Z.of_nat (i + 1)) ++ js ". **" ++ headline news ++ js "**" ++ LF ++
  js "   " ++ summary news ++ LF ++
  js "   Student Relevance: " ++ relevanceToStudents news.

Definition newsContext (financialNews : list FinancialNews) : jsstring :=
  join (LF ++ LF) (map_index newsEntry 0 financialNews).

Definition prompt (financialNews : list FinancialNews) : jsstring :=
  js "You are a friendly financial literacy coach for students. Based on today's financial news, provide a brief, encouraging morning briefing."
  ++ LF ++ LF ++
  js "Today's Financial News:" ++ LF ++
  newsContext financialNews ++ LF ++ LF ++
  js "Instructions:" ++ LF ++
  js "1. Summarize how each piece of news might affect students specifically" ++ LF ++
  js "2. Provide 2-3 actionable tips based on the news" ++ LF ++
  js "3. Keep the tone positive and encouraging" ++ LF ++
  js "4. Use simple language that college students would understand" ++ LF ++
  js "5. Keep the total response under 300 words" ++ LF ++ LF ++
  js "Start with a friendly greeting appropriate for a morning briefing.".

Definition summaryCall (financialNews : list FinancialNews) : AiCall :=
  mkAiCall llama
    [ mkAiMessage system
        (js "You are FinSight, a helpful and encouraging financial literacy coach for students. You explain complex financial topics in simple terms.");
      mkAiMessage user (prompt financialNews) ]
    512 (7 # 10).

(** ['response' in response ? response.response : '...'] *)
Definition summaryText (response : AiResponse) : option jsstring :=
  match response with
  | AiText r => r
  | AiStream =>
      Some (js "Unable to generate summary. Please check back later for your daily financial briefing.")
  end.

(** [injectionResult.success]: the bodies that carry [success: true]. *)
Definition success (result : ResponseBody) : bool :=
  match result with
  | SuccessJson _ | ProfileSavedJson _ => true
  | _ => false
  end.

Section Run.

Variable E : Env.

(** [Date.prototype.toISOString], the rendering of a time value. *)
Variable toISOString : Z -> jsstring.

(** Step 'generate-student-summary'. *)
Definition generate_student_summary (financialNews : list FinancialNews)
  : M Worker.World jsstring :=
  response <- Worker.AI E (summaryCall financialNews) ;;
  ret (or_string (summaryText response) (js "No summary generated")).

Definition completionMessage (userId : jsstring) (items : nat) (injected : bool)
           (now : Z) : jsstring :=
  js "Daily briefing workflow completed successfully." ++ LF ++
  js "- User: " ++ userId ++ LF ++
  js "- News items processed: " ++ numberToString (Z.of_nat items) ++ LF ++
  js "- Briefing injected: " ++ (if injected then js "Yes" else js "No") ++ LF ++
  js "- Timestamp: " ++ toISOString now.

(** [run(event, step)] for the payload [{ userId, timestamp }], on the object
    of that user. *)
Definition run (userId : jsstring) (shuffled : list FinancialNews) (random : Q)
  : M Worker.World jsstring :=
  let financialNews := fetch_financial_news shuffled random in
  studentSummary <- generate_student_summary financialNews ;;
  injectionResult <- Worker.inject_briefing_to_chat E studentSummary ;;
  now <- Worker.new_Date E ;;
  ret (completionMessage userId (length financialNews)
         (success injectionResult) now).

End Run.

End Briefing.

(* ------------------------------------------------------------------------- *)
(** ** backend/src/workflows/BriefingWorkflow.ts: the run of the workflow *)

Module BackendBriefing.

(** Step 'fetch-news'. *)
Definition news : list jsstring :=
  [ js "Interest rates dropped by 0.25%";
    js "Student loan forgiveness program expanded";
    js "Part-time job market is growing" ].

Definition prompt : jsstring :=
  js "Today's news: " ++ join (js "; ") news ++
  js ". Summarize what this means for a college student and give 2 actionable tips.".

Section Run.

Variable E : Env.

(** Step 'analyze-news'. *)
Definition analyze_news : M Backend.World jsstring :=
  resp <- Backend.runLLM E
            [ mkAiMessage system (js "You are a financial coach for students.");
              mkAiMessage user prompt ] 256 ;;
  ret (or_string (Backend.response_of resp) (js "No summary generated.")).

Definition run : M Backend.World jsstring :=
  summary <- analyze_news ;;
  Backend.inject_briefing E summary ;;
  ret (js "Briefing complete").

End Run.

End BackendBriefing.

(* ------------------------------------------------------------------------- *)
(** ** src/index.ts: the routes that forward to the object

    A route runs against the world of the one object it addresses
    ('default-user').  An exception that leaves a route is the framework's to
    answer; here it is the exception. *)

Module Api.

Section Routes.

Variable E : Env.

(** [await c.req.json()]: [None] is a body that is not JSON. *)
Definition req_json (body : option Worker.Body) : M Worker.World Worker.Body :=
  match body with
  | Some b => ret b
  | None => throw SyntaxError
  end.

(** [await response.json()]: the plain-text body of the 404 is not JSON. *)
Definition response_json (response : Response) : M Worker.World ResponseBody :=
  match payload response with
  | Text _ => throw SyntaxError
  | data => ret data
  end.

(** POST /api/chat: [c.json(data, response.status)] *)
Definition chat (body : option Worker.Body) : M Worker.World Response :=
  b <- req_json body ;;
  response <- Worker.fetch E (Worker.mkRequest "POST" "/chat" (Some b)) ;;
  data <- response_json response ;;
  ret (mkResponse (status response) data).

(** GET /api/history: [c.json(data)] *)
Definition history : M Worker.World Response :=
  response <- Worker.fetch E (Worker.mkRequest "GET" "/history" None) ;;
  data <- response_json response ;;
  ret (mkResponse 200 data).

(** POST /api/profile *)
Definition profile_post (body : option Worker.Body) : M Worker.World Response :=
  b <- req_json body ;;
  response <- Worker.fetch E (Worker.mkRequest "POST" "/profile" (Some b)) ;;
  data <- response_json response ;;
  ret (mkResponse (status response) data).

(** GET /api/profile *)
Definition profile_get : M Worker.World Response :=
  response <- Worker.fetch E (Worker.mkRequest "GET" "/profile" None) ;;
  data <- response_json response ;;
  ret (mkResponse 200 data).

(** POST /api/clear *)
Definition clear : M Worker.World Response :=
  response <- Worker.fetch E (Worker.mkRequest "POST" "/clear" None) ;;
  data <- response_json response ;;
  ret (mkResponse 200 data).

End Routes.

End Api.

(* ------------------------------------------------------------------------- *)
(** ** frontend/src/components/ProfileModal.tsx: the goal list of the form

    The state of the component that the two handlers touch, and the handlers
    as the state updates they make. *)

Module ProfileModal.

Record State := mkState { profile : FinancialProfile; newGoal : jsstring }.

(** [{ ...prev, financialGoals: goals }] *)
Definition with_goals (goals : option (list jsstring)) (prev : FinancialProfile)
  : FinancialProfile :=
  mkProfile (monthlyIncome prev) (totalDebt prev) (savingsGoal prev)
            (emergencyFund prev) goals (lastUpdated prev).

Definition addGoal (s : State) : State :=
  if negb (truthy_string (trim (newGoal s))) then s
  else
    mkState
      (with_goals
         (Some (match financialGoals (profile s) with Some g => g | None => [] end
                ++ [trim (newGoal s)]))
         (profile s))
      [].

(** [arr.filter((_, i) => i !== index)] *)
Fixpoint filter_other {A} (index i : nat) (l : list A) : list A :=
  match l with
  | [] => []
  | x :: r =>
      if Nat.eqb i index then filter_other index (S i) r
      else x :: filter_other index (S i) r
  end.

Definition removeGoal (index : nat) (s : State) : State :=
  mkState
    (with_goals (option_map (filter_other index 0) (financialGoals (profile s)))
                (profile s))
    (newGoal s).

End ProfileModal.

(* ------------------------------------------------------------------------- *)
(** ** Sample collaborators *)

Module Sample.

Definition epoch : Z := 1700000000000.

(** The model answers, the clock advances by one millisecond per reading and
    storage never fails. *)
Definition quiet : Env :=
  mkEnv (fun _ _ => AiResolves (AiText (Some (js "Track your spending first."))))
        (fun n => epoch + Z.of_nat n)
        (fun _ => false).

(** As [quiet], with a clock that does not advance between two readings. *)
Definition frozen : Env :=
  mkEnv (AI_run quiet) (fun _ => epoch) (fun _ => false).

(** As [quiet], with a model that rejects every call. *)
Definition offline : Env :=
  mkEnv (fun _ _ => AiRejects) (Date_now quiet) (fun _ => false).

Definition noStorage : Worker.Storage := Worker.mkStorage None None.

Definition debtOnly : FinancialProfile :=
  mkProfile None (Some 2000) None None None None.

Definition incomeOnly : FinancialProfile :=
  mkProfile (Some 1500) None None None None None.

Definition hello : ChatMessage := mkChatMessage user (js "Hello") epoch.

Definition welcome : ChatMessage :=
  mkChatMessage assistant (js "Welcome back.") (epoch + 1).

(** An initialized object with two messages and a profile, all persisted. *)
Definition busy : Worker.World :=
  Worker.mkWorld [hello; welcome] debtOnly true
    (Worker.mkStorage (Some [hello; welcome]) (Some debtOnly)) 2
    [Get "chatHistory"; Get "financialProfile"] [].

(** As [quiet], with a storage whose operation number [k] fails. *)
Definition flaky (k : nat) : Env :=
  mkEnv (AI_run quiet) (Date_now quiet) (fun n => Nat.eqb n k).

(** A storage that holds what [busy] holds. *)
Definition busyStorage : Worker.Storage :=
  Worker.mkStorage (Some [hello; welcome]) (Some debtOnly).

(** A backend object with the two messages in memory and in storage. *)
Definition backendBusy : Backend.World :=
  Backend.mkWorld [hello; welcome] (Some [hello; welcome]) 2 [Get "history"] [].

(** A binding with one running instance, 'w-running', one instance whose
    status cannot be read, 'w-broken', and no other. *)
Definition running : Router.InstanceStatus :=
  Router.mkStatus "running" None None.

Definition instances : Router.Workflow :=
  fun id =>
    if list_eq_dec N.eq_dec id (js "w-running") then Some (Some running)
    else if list_eq_dec N.eq_dec id (js "w-broken") then Some None
    else None.

(** A rendering of time values for the runs of the workflow. *)
Definition isoStub (t : Z) : jsstring := numberToString t.

End Sample.

Module WorkerSpec.
Import Worker.

(** Unfolding the monad and the setters of the world. *)
Ltac unfold_world :=
  cbv [set_chatHistory set_financialProfile set_initialized set_storage
       tick log_storage log_ai] in *;
  cbn [chatHistory financialProfile initialized storage clockReads
       storageLog aiLog stored_chatHistory stored_financialProfile] in *.

Ltac unfold_monad :=
  cbv [bind ret throw try_catch gets modify after outcome push] in *.

Lemma initialize_reliable E w :
  reliable E -> initialize E w = (Returned tt, loaded w).
Proof.
  intros R. unfold initialize, loaded. unfold_monad.
  destruct (initialized w) eqn:I.
  - reflexivity.
  - unfold storage_get_chatHistory, storage_get_financialProfile, storage_op.
    unfold_monad. rewrite R. unfold_world. rewrite R. unfold_world.
    rewrite <- app_assoc. reflexivity.
Qed.

Lemma saveState_reliable E w :
  reliable E -> saveState E w = (Returned tt, saved w).
Proof.
  intros R.
  unfold saveState, saved, storage_put_chatHistory, storage_put_financialProfile,
    storage_op.
  unfold_monad. rewrite R. unfold_world. rewrite R. unfold_world.
  rewrite <- app_assoc. reflexivity.
Qed.

Lemma fetch_loaded E request w :
  reliable E ->
  fetch E request w =
  try_catch (dispatch E request)
    (fun _ => ret (mkResponse 500 (ErrorJson "Internal server error"))) (loaded w).
Proof.
  intros R. unfold fetch. unfold bind at 1. rewrite (initialize_reliable E w R).
  reflexivity.
Qed.

Lemma loaded_initialized w : initialized (loaded w) = true.
Proof. unfold loaded. destruct (initialized w) eqn:I; [exact I | reflexivity]. Qed.


Lemma handleChat_blank E request w b :
  body request = Some b ->
  option_map trim (message b) = None \/ option_map trim (message b) = Some [] ->
  handleChat E request w =
  (Returned (mkResponse 400 (ErrorJson "Message is required")), w).
Proof.
  intros B T. unfold handleChat, request_json. rewrite B. unfold_monad.
  destruct T as [T | T]; rewrite T; reflexivity.
Qed.

Lemma handleChat_nobody E request w :
  body request = None -> handleChat E request w = (Thrown SyntaxError, w).
Proof.
  intros B. unfold handleChat, request_json. rewrite B. reflexivity.
Qed.

Lemma handleChat_rejects E request w b c r :
  body request = Some b ->
  option_map trim (message b) = Some (c :: r) ->
  AI_run E (length (aiLog w)) (chatCall E (c :: r) w) = AiRejects ->
  handleChat E request w =
  (Thrown InferenceError,
   log_ai (chatCall E (c :: r) w)
     (set_chatHistory (chatHistory w ++ [userTurn E (c :: r) w]) (tick w))).
Proof.
  intros B T A. unfold handleChat, request_json. rewrite B. unfold_monad.
  rewrite T. unfold new_Date, AI. unfold_world.
  fold (userTurn E (c :: r) w). fold (chatCall E (c :: r) w). rewrite A.
  reflexivity.
Qed.

Lemma handleChat_resolves E request w b c r resp :
  reliable E ->
  body request = Some b ->
  option_map trim (message b) = Some (c :: r) ->
  AI_run E (length (aiLog w)) (chatCall E (c :: r) w) = AiResolves resp ->
  handleChat E request w =
  (Returned (mkResponse 200 (ChatJson (content (assistantTurn E resp w))
                                      (timestamp (assistantTurn E resp w)))),
   saved (set_chatHistory
            (chatHistory w ++ [userTurn E (c :: r) w; assistantTurn E resp w])
            (tick (tick (log_ai (chatCall E (c :: r) w) w))))).
Proof.
  intros R B T A. unfold handleChat, request_json. rewrite B. unfold_monad.
  rewrite T. unfold new_Date, AI. unfold_world.
  fold (userTurn E (c :: r) w). fold (chatCall E (c :: r) w). rewrite A.
  unfold_world. fold (assistantTurn E resp w).
  rewrite (saveState_reliable E _ R). unfold saved. unfold_world.
  rewrite <- app_assoc. reflexivity.
Qed.

Lemma updateProfile_reliable E request w b :
  reliable E ->
  body request = Some b ->
  let p := with_lastUpdated (Date_now E (clockReads w))
             (spread (financialProfile w) (updates b)) in
  updateProfile E request w =
  (Returned (mkResponse 200 (ProfileSavedJson p)),
   saved (set_financialProfile p (tick w))).
Proof.
  intros R B p. unfold updateProfile, request_json. rewrite B. unfold_monad.
  unfold new_Date. unfold_world. fold p.
  rewrite (saveState_reliable E _ R). reflexivity.
Qed.

Lemma injectBriefing_reliable E request w b c r :
  reliable E ->
  body request = Some b ->
  briefing b = Some (c :: r) ->
  injectBriefing E request w =
  (Returned (mkResponse 200 (SuccessJson "Briefing injected successfully")),
   saved (set_chatHistory
            (chatHistory w ++
               [mkChatMessage assistant (briefingMarker ++ c :: r)
                              (Date_now E (clockReads w))])
            (tick w))).
Proof.
  intros R B T. unfold injectBriefing, request_json. rewrite B. unfold_monad.
  rewrite T. unfold new_Date. unfold_world.
  rewrite (saveState_reliable E _ R). reflexivity.
Qed.

Lemma injectBriefing_empty E request w b :
  body request = Some b ->
  briefing b = None \/ briefing b = Some [] ->
  injectBriefing E request w =
  (Returned (mkResponse 400 (ErrorJson "Briefing content is required")), w).
Proof.
  intros B T. unfold injectBriefing, request_json. rewrite B. unfold_monad.
  destruct T as [T | T]; rewrite T; reflexivity.
Qed.

Lemma clearHistory_reliable E w :
  reliable E ->
  clearHistory E w =
  (Returned (mkResponse 200 (SuccessJson "History cleared")),
   saved (set_chatHistory [] w)).
Proof.
  intros R. unfold clearHistory. unfold_monad.
  rewrite (saveState_reliable E _ R). reflexivity.
Qed.

End WorkerSpec.

Module BackendSpec.
Import Backend.

Ltac unfold_world :=
  cbv [set_history set_stored_history tick log_storage log_ai] in *;
  cbn [history stored_history clockReads storageLog aiLog] in *.

Ltac unfold_monad :=
  cbv [bind ret throw try_catch gets modify after outcome push] in *.

Lemma backend_initialize_reliable E w :
  reliable E -> initialize E w = (Returned tt, loaded w).
Proof.
  intros R. unfold initialize, loaded. unfold_monad.
  destruct (length (history w) =? 0)%nat.
  - unfold storage_get_history, storage_op. unfold_monad. rewrite R. reflexivity.
  - reflexivity.
Qed.


Lemma backend_loaded_clockReads w : clockReads (loaded w) = clockReads w.
Proof. unfold loaded. destruct (length (history w) =? 0)%nat; reflexivity. Qed.

Lemma backend_inject_reliable E w summary :
  reliable E ->
  fetch E (mkRequest "POST" "/injectBriefing" (Some (mkBody [] summary))) w =
  (Returned (mkResponse 200 OkJson),
   let h := history (loaded w) ++ [briefingTurn E summary (loaded w)] in
   set_stored_history h
     (log_storage (Put "history") (set_history h (tick (loaded w))))).
Proof.
  intros R. unfold fetch. unfold bind at 1. rewrite (backend_initialize_reliable E w R).
  cbn [route method pathname String.eqb Ascii.eqb Bool.eqb andb].
  unfold request_json. cbn [body]. unfold_monad.
  unfold new_Date, storage_put_history, storage_op. unfold_monad. unfold_world.
  rewrite R. reflexivity.
Qed.

Lemma backend_loaded_aiLog w : aiLog (loaded w) = aiLog w.
Proof. unfold loaded. destruct (length (history w) =? 0)%nat; reflexivity. Qed.

Lemma backend_chat_run E w t :
  reliable E ->
  let w0 := loaded w in
  let h1 := history w0 ++ [userTurn E t w0] in
  fetch E (sendMessage t) w =
  match AI_run E (length (aiLog w0)) (chatCall E t w0) with
  | AiRejects =>
      (Thrown InferenceError,
       mkWorld h1 (stored_history w0) (S (clockReads w0)) (storageLog w0)
               (aiLog w0 ++ [chatCall E t w0]))
  | AiResolves r =>
      let h2 := h1 ++ [assistantTurn E r w0] in
      (Returned (mkResponse 200 (ChatJson (content (assistantTurn E r w0))
                                          (timestamp (assistantTurn E r w0)))),
       mkWorld h2 (Some h2) (S (S (clockReads w0)))
               (storageLog w0 ++ [Put "history"])
               (aiLog w0 ++ [chatCall E t w0]))
  end.
Proof.
  intros R w0 h1. unfold fetch. unfold bind at 1.
  rewrite (backend_initialize_reliable E w R). fold w0.
  cbn [route method pathname sendMessage String.eqb Ascii.eqb Bool.eqb andb].
  unfold request_json. cbn [body sendMessage].
  subst h1. unfold chatCall, userTurn, assistantTurn.
  destruct w0 as [h st c l a].
  unfold new_Date, runLLM, storage_put_history, storage_op.
  unfold_monad. unfold_world. cbn [message].
  destruct (AI_run E (length a) _) as [r |]; [| reflexivity].
  unfold_world. rewrite R. reflexivity.
Qed.

End BackendSpec.

(* ------------------------------------------------------------------------- *)
(** ** The properties of the specification *)

Lemma try_catch_returned {W A} (m : M W A) (h : Error -> M W A) w a w' :
  m w = (Returned a, w') -> try_catch m h w = (Returned a, w').
Proof. intros H. unfold try_catch. rewrite H. reflexivity. Qed.

Lemma try_catch_thrown {W A} (m : M W A) (h : Error -> M W A) w e w' :
  m w = (Thrown e, w') -> try_catch m h w = h e w'.
Proof. intros H. unfold try_catch. rewrite H. reflexivity. Qed.

(** C8: for every actor state, clear() answers with an acknowledgement,
    leaves a history of length 0 and leaves the profile as it was, field by
    field, lastUpdated included; the emptied history and the profile are the
    persisted state. *)
Theorem clear_empties_history_keeps_profile (E : Env) (w : Worker.World) :
  reliable E ->
  let before := Worker.financialProfile (Worker.loaded w) in
  let w' := after (Worker.fetch E Worker.clear) w in
  outcome (Worker.fetch E Worker.clear) w
    = Returned (mkResponse 200 (SuccessJson "History cleared"))
  /\ length (Worker.chatHistory w') = 0%nat
  /\ Worker.financialProfile w' = before
  /\ lastUpdated (Worker.financialProfile w') = lastUpdated before
  /\ Worker.storage w' = Worker.mkStorage (Some []) (Some before).
Proof.
  intros R before w'. subst w'. unfold after, outcome.
  rewrite (WorkerSpec.fetch_loaded E _ w R).
  rewrite (try_catch_returned _ _ _ _ _
             (WorkerSpec.clearHistory_reliable E (Worker.loaded w) R)).
  cbn. repeat split; reflexivity.
Qed.

Lemma clear_empties_history_keeps_profile_witness :
  reliable Sample.quiet
  /\ length (Worker.chatHistory
               (after (Worker.fetch Sample.quiet Worker.clear) Sample.busy)) = 0%nat
  /\ Worker.financialProfile
       (after (Worker.fetch Sample.quiet Worker.clear) Sample.busy) = Sample.debtOnly.
Proof.
  assert (R : reliable Sample.quiet) by (intro n; reflexivity).
  split; [exact R |].
  destruct (clear_empties_history_keeps_profile Sample.quiet Sample.busy R)
    as (_ & L & P & _).
  split; [exact L | exact P].
Defined.

(** C7: updateProfile merges the supplied fields into the existing profile:
    a supplied field takes the supplied value, a field that is not supplied
    keeps its value; lastUpdated is set to the time of the call; the result
    is persisted and returned in full.  In particular, supplying
    monthlyIncome 1500 to a profile whose totalDebt is 2000 yields a profile
    with both. *)
Theorem updateProfile_merges_fields (E : Env) (w : Worker.World)
        (fields : FinancialProfile) :
  reliable E ->
  let before := Worker.financialProfile (Worker.loaded w) in
  let pick {A} (f : FinancialProfile -> option A) :=
    match f fields with Some v => Some v | None => f before end in
  let w' := after (Worker.fetch E (Worker.updateProfileRequest fields)) w in
  let p := Worker.financialProfile w' in
  outcome (Worker.fetch E (Worker.updateProfileRequest fields)) w
    = Returned (mkResponse 200 (ProfileSavedJson p))
  /\ Worker.stored_financialProfile (Worker.storage w') = Some p
  /\ lastUpdated p = Some (Date_now E (Worker.clockReads w))
  /\ monthlyIncome p = pick monthlyIncome
  /\ totalDebt p = pick totalDebt
  /\ savingsGoal p = pick savingsGoal
  /\ emergencyFund p = pick emergencyFund
  /\ financialGoals p = pick financialGoals
  /\ (fields = Sample.incomeOnly -> totalDebt before = Some 2000 ->
      totalDebt p = Some 2000 /\ monthlyIncome p = Some 1500)
  /\ Worker.chatHistory w' = Worker.chatHistory (Worker.loaded w).
Proof.
  intros R before pick w' p. subst p w'. unfold after, outcome.
  rewrite (WorkerSpec.fetch_loaded E _ w R).
  change (Worker.dispatch E (Worker.updateProfileRequest fields))
    with (Worker.updateProfile E (Worker.updateProfileRequest fields)).
  rewrite (try_catch_returned _ _ _ _ _
             (WorkerSpec.updateProfile_reliable E (Worker.updateProfileRequest fields)
                (Worker.loaded w) (Worker.mkBody None None None fields) R eq_refl)).
  cbn [fst snd Worker.saved Worker.set_financialProfile Worker.tick
       Worker.financialProfile Worker.storage Worker.stored_financialProfile
       Worker.chatHistory Worker.updates Worker.with_lastUpdated Worker.spread
       monthlyIncome totalDebt savingsGoal emergencyFund financialGoals lastUpdated].
  fold before.
  assert (C : Worker.clockReads (Worker.loaded w) = Worker.clockReads w)
    by (unfold Worker.loaded; destruct (Worker.initialized w); reflexivity).
  rewrite C.
  do 8 (split; [reflexivity |]).
  split; [| reflexivity].
  intros F D. subst fields. cbn. split; [exact D | reflexivity].
Qed.

Lemma updateProfile_merges_fields_witness :
  reliable Sample.quiet
  /\ let p := Worker.financialProfile
                (after (Worker.fetch Sample.quiet
                          (Worker.updateProfileRequest Sample.incomeOnly))
                       Sample.busy) in
     totalDebt p = Some 2000 /\ monthlyIncome p = Some 1500
     /\ lastUpdated p = Some (Sample.epoch + 2).
Proof.
  assert (R : reliable Sample.quiet) by (intro n; reflexivity).
  split; [exact R |].
  destruct (updateProfile_merges_fields Sample.quiet Sample.busy Sample.incomeOnly R)
    as (_ & _ & L & _ & _ & _ & _ & _ & X & _).
  destruct (X eq_refl eq_refl) as [D I].
  cbv zeta. split; [exact D | split; [exact I | exact L]].
Defined.

Lemma fetch_injectBriefing (E : Env) (w : Worker.World) c r key :
  reliable E ->
  Worker.fetch E (Worker.injectBriefingRequest (c :: r) key) w =
  (Returned (mkResponse 200 (SuccessJson "Briefing injected successfully")),
   Worker.saved
     (Worker.set_chatHistory
        (Worker.chatHistory (Worker.loaded w) ++
           [mkChatMessage assistant (Worker.briefingMarker ++ c :: r)
                          (Date_now E (Worker.clockReads (Worker.loaded w)))])
        (Worker.tick (Worker.loaded w)))).
Proof.
  intros R. rewrite (WorkerSpec.fetch_loaded E _ w R).
  apply try_catch_returned.
  change (Worker.dispatch E (Worker.injectBriefingRequest (c :: r) key))
    with (Worker.injectBriefing E (Worker.injectBriefingRequest (c :: r) key)).
  apply (WorkerSpec.injectBriefing_reliable E _ _
           (Worker.mkBody None (Some (c :: r)) key emptyProfile) c r R);
    reflexivity.
Qed.

Lemma loaded_clockReads w :
  Worker.clockReads (Worker.loaded w) = Worker.clockReads w.
Proof. unfold Worker.loaded. destruct (Worker.initialized w); reflexivity. Qed.

Lemma loaded_of_initialized w :
  Worker.initialized w = true -> Worker.loaded w = w.
Proof. intros I. unfold Worker.loaded. rewrite I. reflexivity. Qed.




Lemma fetch_getHistory (E : Env) (w : Worker.World) :
  reliable E ->
  Worker.fetch E Worker.getHistoryRequest w =
  (Returned (mkResponse 200 (HistoryJson (Worker.chatHistory (Worker.loaded w)))),
   Worker.loaded w).
Proof.
  intros R. rewrite (WorkerSpec.fetch_loaded E _ w R). reflexivity.
Qed.





Lemma or_string_nonempty a b : b <> [] -> or_string a b <> [].
Proof.
  intros B. unfold or_string. destruct a as [[| c r] |]; cbn; try exact B.
  discriminate.
Qed.

Lemma dispatch_sendMessage (E : Env) text :
  Worker.dispatch E (Worker.sendMessage text)
  = Worker.handleChat E (Worker.sendMessage text).
Proof. reflexivity. Qed.

(** C5, as the code has it: on an actor with an empty history, a successful
    sendMessage leaves a history of exactly two messages: the user message,
    whose content is the given text trimmed, then an assistant message with
    a non-empty content; their timestamps are the two successive readings of
    the clock, so they are in order whenever the clock does not go back (and
    differ only if the clock advanced in between); both are persisted, and a
    subsequent getHistory returns the two in that order and changes nothing. *)
Theorem sendMessage_on_fresh_actor (E : Env) (w : Worker.World)
        (text : jsstring) (resp : Response) :
  reliable E -> monotone_clock E ->
  Worker.chatHistory (Worker.loaded w) = [] ->
  outcome (Worker.fetch E (Worker.sendMessage text)) w = Returned resp ->
  status resp = 200 ->
  let w' := after (Worker.fetch E (Worker.sendMessage text)) w in
  exists u a,
    Worker.chatHistory w' = [u; a]
    /\ role u = user /\ content u = trim text
    /\ role a = assistant /\ content a <> []
    /\ timestamp u = Date_now E (Worker.clockReads w)
    /\ timestamp a = Date_now E (S (Worker.clockReads w))
    /\ timestamp u <= timestamp a
    /\ payload resp = ChatJson (content a) (timestamp a)
    /\ Worker.stored_chatHistory (Worker.storage w') = Some [u; a]
    /\ Worker.fetch E Worker.getHistoryRequest w'
       = (Returned (mkResponse 200 (HistoryJson [u; a])), w').
Proof.
  intros R Mono Fresh Out Ok w'. subst w'. revert Out. unfold after, outcome.
  rewrite (WorkerSpec.fetch_loaded E _ w R), dispatch_sendMessage.
  set (w0 := Worker.loaded w) in *.
  set (b := Worker.mkBody (Some text) None None emptyProfile).
  assert (B : Worker.body (Worker.sendMessage text) = Some b) by reflexivity.
  destruct (trim text) as [| c r] eqn:T.
  - rewrite (try_catch_returned _ _ _ _ _
               (WorkerSpec.handleChat_blank E _ w0 b B
                  (or_intror (f_equal Some T)))).
    cbn. intros X. inversion X; subst resp. discriminate Ok.
  - assert (T' : option_map trim (Worker.message b) = Some (c :: r))
      by (cbn; rewrite T; reflexivity).
    destruct (AI_run E (length (Worker.aiLog w0)) (Worker.chatCall E (c :: r) w0))
      as [ai |] eqn:A.
    + rewrite (try_catch_returned _ _ _ _ _
                 (WorkerSpec.handleChat_resolves E _ w0 b c r ai R B T' A)).
      cbn [fst snd]. intros X. inversion X; subst resp. clear X Ok.
      exists (Worker.userTurn E (c :: r) w0), (Worker.assistantTurn E ai w0).
      assert (C : Worker.clockReads w0 = Worker.clockReads w)
        by apply loaded_clockReads.
      split; [cbn; rewrite Fresh; reflexivity |].
      split; [reflexivity |]. split; [reflexivity |]. split; [reflexivity |].
      split; [apply or_string_nonempty; discriminate |].
      split; [cbn; rewrite C; reflexivity |].
      split; [cbn; rewrite C; reflexivity |].
      split; [cbn; apply Mono |].
      split; [reflexivity |].
      split; [cbn; rewrite Fresh; reflexivity |].
      rewrite (fetch_getHistory E _ R).
      rewrite loaded_of_initialized
        by (cbn; apply WorkerSpec.loaded_initialized).
      cbn [Worker.saved Worker.set_chatHistory Worker.chatHistory].
      rewrite Fresh. reflexivity.
    + rewrite (try_catch_thrown _ _ _ _ _
                 (WorkerSpec.handleChat_rejects E _ w0 b c r B T' A)).
      cbn. intros X. inversion X; subst resp. discriminate Ok.
Qed.

Lemma sendMessage_on_fresh_actor_witness :
  monotone_clock Sample.quiet
  /\ exists u a,
       Worker.chatHistory
         (after (Worker.fetch Sample.quiet
                   (Worker.sendMessage (js "How do I budget?")))
                (Worker.construct Sample.noStorage)) = [u; a]
       /\ content u = trim (js "How do I budget?")
       /\ timestamp u <= timestamp a.
Proof.
  assert (R : reliable Sample.quiet) by (intro n; reflexivity).
  assert (Mono : monotone_clock Sample.quiet).
  { intro n. unfold Sample.quiet. cbn [Date_now]. lia. }
  split; [exact Mono |].
  destruct (sendMessage_on_fresh_actor Sample.quiet
              (Worker.construct Sample.noStorage) (js "How do I budget?")
              (mkResponse 200
                 (ChatJson (js "Track your spending first.") (Sample.epoch + 1)))
              R Mono eq_refl eq_refl eq_refl)
    as (u & a & H & _ & Cu & _ & _ & _ & _ & Le & _).
  exists u, a. split; [exact H | split; [exact Cu | exact Le]].
Defined.

(** C5 as stated fails on two counts: with a clock that gives the same
    reading twice, the two timestamps of a successful sendMessage are equal,
    not strictly increasing; and the content of the user message is the text
    trimmed, not the text given. *)
Lemma sendMessage_timestamps_may_coincide :
  let w0 := Worker.construct Sample.noStorage in
  let w1 := after (Worker.fetch Sample.frozen
                     (Worker.sendMessage (js "How do I budget?"))) w0 in
  let w2 := after (Worker.fetch Sample.quiet
                     (Worker.sendMessage (js " How do I budget? "))) w0 in
  (exists resp,
     outcome (Worker.fetch Sample.frozen
                (Worker.sendMessage (js "How do I budget?"))) w0 = Returned resp
     /\ status resp = 200)
  /\ map role (Worker.chatHistory w1) = [user; assistant]
  /\ map timestamp (Worker.chatHistory w1) = [Sample.epoch; Sample.epoch]
  /\ ~ (Sample.epoch < Sample.epoch)
  /\ map content (Worker.chatHistory w2)
     = [js "How do I budget?"; js "Track your spending first."]
  /\ js "How do I budget?" <> js " How do I budget? ".
Proof.
  cbv zeta. split.
  - eexists. split; [vm_compute; reflexivity | reflexivity].
  - split; [vm_compute; reflexivity |].
    split; [vm_compute; reflexivity |].
    split; [lia |].
    split; [vm_compute; reflexivity |].
    vm_compute. discriminate.
Qed.



Lemma Object_keys_empty p :
  Worker.Object_keys p = [] <-> p = emptyProfile.
Proof.
  split.
  - destruct p as [[a |] [b |] [c |] [d |] [e |] [f |]]; cbn;
      intros H; try discriminate H; reflexivity.
  - intros ->. reflexivity.
Qed.

Lemma contextualSystemPrompt_cases p :
  (p = emptyProfile -> Worker.contextualSystemPrompt p = Worker.SYSTEM_PROMPT)
  /\ (p <> emptyProfile ->
      Worker.contextualSystemPrompt p
      = Worker.SYSTEM_PROMPT ++ Worker.profileSummary p).
Proof.
  unfold Worker.contextualSystemPrompt.
  destruct (Worker.Object_keys p) as [| k ks] eqn:K.
  - apply Object_keys_empty in K. split; [reflexivity | contradiction].
  - split; [| reflexivity].
    intros P. apply Object_keys_empty in P. rewrite P in K. discriminate K.
Qed.

Lemma loaded_aiLog w : Worker.aiLog (Worker.loaded w) = Worker.aiLog w.
Proof. unfold Worker.loaded. destruct (Worker.initialized w); reflexivity. Qed.





(** C9, as the code has it: the workflow-status route never throws.  When
    the binding knows no instance of the given id it answers with the one
    failure of its catch block, HTTP 500 'Failed to get workflow status'; it
    gives the very same answer when the instance exists and its status cannot
    be read, so an unknown id is not told apart from any other error.  When
    the instance exists and its status is read, it answers 200 with the id,
    the status, the output and the error of the instance; 200 is answered in
    that case only. *)
Theorem workflow_status_of_instance (W : Router.Workflow) (instanceId : jsstring) :
  exists resp,
    Router.workflow_status W instanceId tt = (Returned resp, tt)
    /\ (W instanceId = None -> resp = Router.statusFailure)
    /\ (W instanceId = Some None -> resp = Router.statusFailure)
    /\ (forall st, W instanceId = Some (Some st) ->
        resp = Router.mkStatusResponse 200
                 (Router.StatusJson instanceId (Router.st_status st)
                    (Router.st_output st) (Router.st_error st)))
    /\ (Router.code resp = 200 <-> exists st, W instanceId = Some (Some st))
    /\ (Router.code resp = 200 \/ resp = Router.statusFailure).
Proof.
  unfold Router.workflow_status, Router.workflow_get, Router.instance_status,
    try_catch, bind, ret, throw.
  destruct (W instanceId) as [[st |] |]; eexists; (split; [reflexivity |]).
  - split; [discriminate |]. split; [discriminate |].
    split; [intros st' H; inversion H; reflexivity |].
    split; [split; [intros _; exists st; reflexivity | reflexivity] |].
    left. reflexivity.
  - split; [discriminate |]. split; [reflexivity |].
    split; [discriminate |].
    split; [split; [intros H; discriminate H | intros [st H]; discriminate H] |].
    right. reflexivity.
  - split; [reflexivity |]. split; [discriminate |].
    split; [discriminate |].
    split; [split; [intros H; discriminate H | intros [st H]; discriminate H] |].
    right. reflexivity.
Qed.

Lemma workflow_status_of_instance_witness :
  Sample.instances (js "w-missing") = None
  /\ outcome (Router.workflow_status Sample.instances (js "w-missing")) tt
     = Returned Router.statusFailure.
Proof.
  assert (U : Sample.instances (js "w-missing") = None) by reflexivity.
  split; [exact U |].
  destruct (workflow_status_of_instance Sample.instances (js "w-missing"))
    as (resp & Run & Unknown & _).
  unfold outcome. rewrite Run. cbn [fst]. f_equal. exact (Unknown U).
Defined.

(** C9 as stated fails: for an unknown id the route does not fail with an
    error of its own kind but returns the generic 500 answer, and it returns
    that same answer, not the instance's status, for an instance that exists
    when reading the status fails. *)
Lemma workflow_status_failure_is_generic :
  Sample.instances (js "w-missing") = None
  /\ Sample.instances (js "w-broken") <> None
  /\ outcome (Router.workflow_status Sample.instances (js "w-missing")) tt
     = Returned (Router.mkStatusResponse 500
                   (Router.StatusFailureJson "Failed to get workflow status"))
  /\ outcome (Router.workflow_status Sample.instances (js "w-broken")) tt
     = outcome (Router.workflow_status Sample.instances (js "w-missing")) tt
  /\ outcome (Router.workflow_status Sample.instances (js "w-running")) tt
     = Returned (Router.mkStatusResponse 200
                   (Router.StatusJson (js "w-running") "running" None None)).
Proof.
  split; [reflexivity |].
  split; [discriminate |].
  split; [reflexivity |].
  split; reflexivity.
Qed.

(** *** Loading and validation in src/UserSession.ts *)

(** A request leaves the object initialized and reads storage only to load. *)
Lemma fetch_frame (E : Env) (w : Worker.World) (request : Worker.Request) :
  reliable E ->
  let w' := after (Worker.fetch E request) w in
  Worker.initialized w' = true
  /\ filter is_get (Worker.storageLog w')
     = filter is_get (Worker.storageLog (Worker.loaded w)).
Proof.
  intros R w'. subst w'. unfold after.
  rewrite (WorkerSpec.fetch_loaded E request w R).
  set (w0 := Worker.loaded w).
  assert (I0 : Worker.initialized w0 = true) by apply WorkerSpec.loaded_initialized.
  assert (Saved : forall v, Worker.initialized v = true ->
            Worker.storageLog v = Worker.storageLog w0 ->
            Worker.initialized (Worker.saved v) = true
            /\ filter is_get (Worker.storageLog (Worker.saved v))
               = filter is_get (Worker.storageLog w0)).
  { intros v Iv Lv. split; [exact Iv |]. cbn. rewrite Lv, filter_app. cbn.
    apply app_nil_r. }
  unfold Worker.dispatch.
  destruct (Worker.route request "POST" "/chat").
  { destruct (Worker.body request) as [b |] eqn:B.
    - destruct (option_map trim (Worker.message b)) as [[| c r] |] eqn:T.
      + rewrite (try_catch_returned _ _ _ _ _
                   (WorkerSpec.handleChat_blank E request w0 b B (or_intror T))).
        split; [exact I0 | reflexivity].
      + destruct (AI_run E (length (Worker.aiLog w0)) (Worker.chatCall E (c :: r) w0))
          as [resp |] eqn:A.
        * rewrite (try_catch_returned _ _ _ _ _
                     (WorkerSpec.handleChat_resolves E request w0 b c r resp R B T A)).
          apply Saved; [exact I0 | reflexivity].
        * rewrite (try_catch_thrown _ _ _ _ _
                     (WorkerSpec.handleChat_rejects E request w0 b c r B T A)).
          split; [exact I0 | reflexivity].
      + rewrite (try_catch_returned _ _ _ _ _
                   (WorkerSpec.handleChat_blank E request w0 b B (or_introl T))).
        split; [exact I0 | reflexivity].
    - rewrite (try_catch_thrown _ _ _ _ _
                 (WorkerSpec.handleChat_nobody E request w0 B)).
      split; [exact I0 | reflexivity]. }
  destruct (Worker.route request "GET" "/history").
  { split; [exact I0 | reflexivity]. }
  destruct (Worker.route request "POST" "/profile").
  { destruct (Worker.body request) as [b |] eqn:B.
    - rewrite (try_catch_returned _ _ _ _ _
                 (WorkerSpec.updateProfile_reliable E request w0 b R B)).
      apply Saved; [exact I0 | reflexivity].
    - unfold try_catch, Worker.updateProfile, Worker.request_json, bind.
      rewrite B. split; [exact I0 | reflexivity]. }
  destruct (Worker.route request "GET" "/profile").
  { split; [exact I0 | reflexivity]. }
  destruct (Worker.route request "POST" "/inject-briefing").
  { destruct (Worker.body request) as [b |] eqn:B.
    - destruct (Worker.briefing b) as [[| c r] |] eqn:T.
      + rewrite (try_catch_returned _ _ _ _ _
                   (WorkerSpec.injectBriefing_empty E request w0 b B (or_intror T))).
        split; [exact I0 | reflexivity].
      + rewrite (try_catch_returned _ _ _ _ _
                   (WorkerSpec.injectBriefing_reliable E request w0 b c r R B T)).
        apply Saved; [exact I0 | reflexivity].
      + rewrite (try_catch_returned _ _ _ _ _
                   (WorkerSpec.injectBriefing_empty E request w0 b B (or_introl T))).
        split; [exact I0 | reflexivity].
    - unfold try_catch, Worker.injectBriefing, Worker.request_json, bind.
      rewrite B. split; [exact I0 | reflexivity]. }
  destruct (Worker.route request "POST" "/clear").
  { rewrite (try_catch_returned _ _ _ _ _
               (WorkerSpec.clearHistory_reliable E w0 R)).
    apply Saved; [exact I0 | reflexivity]. }
  split; [exact I0 | reflexivity].
Qed.

(** In src/UserSession.ts the stored state is read once: whatever requests a
    freshly constructed object serves, its storage log holds one read of each
    key, made by the first request. *)
Lemma worker_loads_once (E : Env) (st : Worker.Storage)
      (first : Worker.Request) (rest : list Worker.Request) :
  reliable E ->
  filter is_get
    (Worker.storageLog (Worker.serve E (first :: rest) (Worker.construct st)))
  = [Get "chatHistory"; Get "financialProfile"].
Proof.
  intros R. cbn [Worker.serve].
  destruct (fetch_frame E (Worker.construct st) first R) as [I1 G1].
  cbn in G1.
  set (w1 := after (Worker.fetch E first) (Worker.construct st)) in *.
  clearbody w1. revert w1 I1 G1.
  induction rest as [| r rest IH]; intros w1 I1 G1.
  - exact G1.
  - cbn [Worker.serve]. apply IH.
    + apply (fetch_frame E w1 r R).
    + destruct (fetch_frame E w1 r R) as [_ G].
      rewrite G, (loaded_of_initialized w1 I1). exact G1.
Qed.

(** In src/UserSession.ts a chat request is answered 400 exactly when its
    text is empty after trimming, and then nothing has changed. *)
Lemma worker_sendMessage_validation (E : Env) (w : Worker.World) text :
  reliable E ->
  exists resp,
    outcome (Worker.fetch E (Worker.sendMessage text)) w = Returned resp
    /\ (status resp = 400 <-> trim text = [])
    /\ (trim text = [] ->
        after (Worker.fetch E (Worker.sendMessage text)) w = Worker.loaded w).
Proof.
  intros R. unfold after, outcome.
  rewrite (WorkerSpec.fetch_loaded E _ w R), dispatch_sendMessage.
  set (w0 := Worker.loaded w).
  set (b := Worker.mkBody (Some text) None None emptyProfile).
  assert (B : Worker.body (Worker.sendMessage text) = Some b) by reflexivity.
  destruct (trim text) as [| c r] eqn:T.
  - rewrite (try_catch_returned _ _ _ _ _
               (WorkerSpec.handleChat_blank E _ w0 b B
                  (or_intror (f_equal Some T)))).
    eexists. split; [reflexivity |]. split; [split; reflexivity | reflexivity].
  - assert (T' : option_map trim (Worker.message b) = Some (c :: r))
      by (cbn; rewrite T; reflexivity).
    destruct (AI_run E (length (Worker.aiLog w0)) (Worker.chatCall E (c :: r) w0))
      as [ai |] eqn:A.
    + rewrite (try_catch_returned _ _ _ _ _
                 (WorkerSpec.handleChat_resolves E _ w0 b c r ai R B T' A)).
      eexists. split; [reflexivity |].
      split; [split; intros X; discriminate X | intros X; discriminate X].
    + rewrite (try_catch_thrown _ _ _ _ _
                 (WorkerSpec.handleChat_rejects E _ w0 b c r B T' A)).
      eexists. split; [reflexivity |].
      split; [split; intros X; discriminate X | intros X; discriminate X].
Qed.

(** *** Loading and validation in backend/src/objects/UserSession.ts *)

Lemma backend_getHistory_empty (E : Env) (w : Backend.World) :
  reliable E -> Backend.history w = [] ->
  (Backend.stored_history w = None \/ Backend.stored_history w = Some []) ->
  after (Backend.fetch E Backend.getHistoryRequest) w
  = Backend.mkWorld [] (Backend.stored_history w) (Backend.clockReads w)
      (Backend.storageLog w ++ [Get "history"]) (Backend.aiLog w).
Proof.
  intros R H St. unfold after, Backend.fetch. unfold bind at 1.
  rewrite (BackendSpec.backend_initialize_reliable E w R).
  cbn. unfold Backend.loaded. rewrite H. cbn.
  unfold Backend.set_history, Backend.log_storage. cbn.
  destruct St as [St | St]; rewrite St; reflexivity.
Qed.

Lemma backend_serve_getHistory_empty (E : Env) (n : nat) :
  reliable E ->
  forall w, Backend.history w = [] ->
  (Backend.stored_history w = None \/ Backend.stored_history w = Some []) ->
  Backend.storageLog (Backend.serve E (repeat Backend.getHistoryRequest n) w)
  = Backend.storageLog w ++ repeat (Get "history") n.
Proof.
  intros R. induction n as [| n IH]; intros w H St.
  - cbn. symmetry. apply app_nil_r.
  - cbn [repeat Backend.serve].
    rewrite (backend_getHistory_empty E w R H St).
    rewrite IH by (cbn; first [reflexivity | exact St]). cbn.
    rewrite <- app_assoc. reflexivity.
Qed.

(** C3, at the input where backend/src/objects/UserSession.ts departs from
    it: on an actor whose persisted history is absent or empty, every
    operation reads the stored history again, so n requests for the history
    make n loads. *)
Theorem backend_reloads_while_history_empty
        (E : Env) (st : option (list ChatMessage)) (n : nat) :
  reliable E -> (st = None \/ st = Some []) ->
  Backend.storageLog
    (Backend.serve E (repeat Backend.getHistoryRequest n) (Backend.construct st))
  = repeat (Get "history") n.
Proof.
  intros R St.
  apply (backend_serve_getHistory_empty E n R (Backend.construct st));
    [reflexivity | exact St].
Qed.

Lemma backend_reloads_while_history_empty_witness :
  Backend.storageLog
    (Backend.serve Sample.quiet
       [Backend.getHistoryRequest; Backend.getHistoryRequest]
       (Backend.construct None))
  = [Get "history"; Get "history"].
Proof.
  apply (backend_reloads_while_history_empty Sample.quiet None 2).
  - intro n. reflexivity.
  - left. reflexivity.
Defined.

(** C4, at the input where backend/src/objects/UserSession.ts departs from
    it: a text that is empty after trimming is not rejected; it is appended
    to history as it is, handed to the model, answered 200 and persisted. *)
Theorem backend_accepts_blank_message
        (E : Env) (w : Backend.World) (text : jsstring) (r : AiResponse) :
  reliable E -> trim text = [] ->
  AI_run E (length (Backend.aiLog w))
        (Backend.chatCall E text (Backend.loaded w)) = AiResolves r ->
  let w' := after (Backend.fetch E (Backend.sendMessage text)) w in
  let u := mkChatMessage user text (Date_now E (Backend.clockReads w)) in
  let a := Backend.assistantTurn E r w in
  outcome (Backend.fetch E (Backend.sendMessage text)) w
    = Returned (mkResponse 200 (ChatJson (content a) (timestamp a)))
  /\ Backend.history w' = Backend.history (Backend.loaded w) ++ [u; a]
  /\ Backend.stored_history w' = Some (Backend.history w')
  /\ length (Backend.aiLog w') = S (length (Backend.aiLog w)).
Proof.
  intros R _ A w' u a. subst w'. unfold after, outcome.
  rewrite (BackendSpec.backend_chat_run E w text R).
  cbv zeta. rewrite BackendSpec.backend_loaded_aiLog, A.
  cbn [fst snd Backend.history Backend.stored_history Backend.aiLog].
  unfold Backend.assistantTurn, Backend.userTurn in *. subst u a.
  rewrite BackendSpec.backend_loaded_clockReads, <- app_assoc.
  repeat split. rewrite length_app. cbn. lia.
Qed.

Lemma backend_accepts_blank_message_witness :
  trim (js "   ") = []
  /\ map content
       (Backend.history
          (after (Backend.fetch Sample.quiet (Backend.sendMessage (js "   ")))
                 (Backend.construct None)))
     = [js "   "; js "Track your spending first."].
Proof.
  assert (R : reliable Sample.quiet) by (intro n; reflexivity).
  assert (T : trim (js "   ") = []) by reflexivity.
  split; [exact T |].
  destruct (backend_accepts_blank_message Sample.quiet (Backend.construct None)
              (js "   ") (AiText (Some (js "Track your spending first.")))
              R T eq_refl) as (_ & H & _).
  rewrite H. reflexivity.
Defined.

(* ------------------------------------------------------------------------- *)
(** ** Further properties of src/UserSession.ts *)

Lemma initialize_initialized (E : Env) (w : Worker.World) :
  Worker.initialized w = true -> Worker.initialize E w = (Returned tt, w).
Proof.
  intros I. unfold Worker.initialize, bind, gets. cbn. rewrite I. reflexivity.
Qed.

Lemma fetch_initialized (E : Env) (w : Worker.World) request :
  Worker.initialized w = true ->
  Worker.fetch E request w =
  try_catch (Worker.dispatch E request)
    (fun _ => ret (mkResponse 500 (ErrorJson "Internal server error"))) w.
Proof.
  intros I. unfold Worker.fetch. unfold bind at 1.
  rewrite (initialize_initialized E w I). reflexivity.
Qed.

Lemma route_method request m p :
  Worker.route request m p = true -> Worker.method request = m.
Proof.
  unfold Worker.route. intros H. apply andb_true_iff in H.
  apply String.eqb_eq. exact (proj1 H).
Qed.

(** The outcomes of a request when storage does not fail: an answer, and one
    of six worlds. *)
Lemma fetch_shape (E : Env) (w : Worker.World) (request : Worker.Request) :
  reliable E ->
  let w0 := Worker.loaded w in
  exists resp w',
    Worker.fetch E request w = (Returned resp, w')
    /\ ((w' = w0 /\ (status resp <> 200 \/ Worker.method request = "GET"%string))
        \/ (status resp = 500
            /\ exists u c,
                 w' = Worker.log_ai c
                        (Worker.set_chatHistory (Worker.chatHistory w0 ++ [u])
                           (Worker.tick w0)))
        \/ (status resp = 200
            /\ exists u a c,
                 w' = Worker.saved
                        (Worker.set_chatHistory (Worker.chatHistory w0 ++ [u; a])
                           (Worker.tick (Worker.tick (Worker.log_ai c w0)))))
        \/ (status resp = 200
            /\ Worker.route request "POST" "/profile" = true
            /\ exists p,
                 w' = Worker.saved (Worker.set_financialProfile p (Worker.tick w0)))
        \/ (status resp = 200
            /\ exists m,
                 w' = Worker.saved
                        (Worker.set_chatHistory (Worker.chatHistory w0 ++ [m])
                           (Worker.tick w0)))
        \/ (status resp = 200
            /\ Worker.route request "POST" "/clear" = true
            /\ w' = Worker.saved (Worker.set_chatHistory [] w0))).
Proof.
  intros R w0. rewrite (WorkerSpec.fetch_loaded E request w R). fold w0.
  assert (Same : forall resp, status resp <> 200 ->
            forall P, P = (Returned resp, w0) ->
            exists resp0 w',
              P = (Returned resp0, w')
              /\ ((w' = w0 /\ (status resp0 <> 200
                               \/ Worker.method request = "GET"%string))
                  \/ (status resp0 = 500
            /\ exists u c,
                 w' = Worker.log_ai c
                        (Worker.set_chatHistory (Worker.chatHistory w0 ++ [u])
                           (Worker.tick w0)))
        \/ (status resp0 = 200
            /\ exists u a c,
                 w' = Worker.saved
                        (Worker.set_chatHistory (Worker.chatHistory w0 ++ [u; a])
                           (Worker.tick (Worker.tick (Worker.log_ai c w0)))))
        \/ (status resp0 = 200
            /\ Worker.route request "POST" "/profile" = true
            /\ exists p,
                 w' = Worker.saved (Worker.set_financialProfile p (Worker.tick w0)))
        \/ (status resp0 = 200
            /\ exists m,
                 w' = Worker.saved
                        (Worker.set_chatHistory (Worker.chatHistory w0 ++ [m])
                           (Worker.tick w0)))
        \/ (status resp0 = 200
            /\ Worker.route request "POST" "/clear" = true
            /\ w' = Worker.saved (Worker.set_chatHistory [] w0)))).
  { intros resp N P ->. exists resp, w0. split; [reflexivity |].
    left. split; [reflexivity | left; exact N]. }
  unfold Worker.dispatch.
  destruct (Worker.route request "POST" "/chat") eqn:Rchat.
  { destruct (Worker.body request) as [b |] eqn:B.
    - destruct (option_map trim (Worker.message b)) as [[| c r] |] eqn:T.
      + apply (Same (mkResponse 400 (ErrorJson "Message is required")));
          [discriminate |].
        apply try_catch_returned.
        apply (WorkerSpec.handleChat_blank E request w0 b B (or_intror T)).
      + destruct (AI_run E (length (Worker.aiLog w0)) (Worker.chatCall E (c :: r) w0))
          as [resp |] eqn:A.
        * rewrite (try_catch_returned _ _ _ _ _
                     (WorkerSpec.handleChat_resolves E request w0 b c r resp R B T A)).
          eexists. eexists. split; [reflexivity |].
          right. right. left. split; [reflexivity |].
          eexists. eexists. eexists. reflexivity.
        * rewrite (try_catch_thrown _ _ _ _ _
                     (WorkerSpec.handleChat_rejects E request w0 b c r B T A)).
          eexists. eexists. split; [reflexivity |].
          right. left. split; [reflexivity |].
          eexists. eexists. reflexivity.
      + apply (Same (mkResponse 400 (ErrorJson "Message is required")));
          [discriminate |].
        apply try_catch_returned.
        apply (WorkerSpec.handleChat_blank E request w0 b B (or_introl T)).
    - apply (Same (mkResponse 500 (ErrorJson "Internal server error")));
        [discriminate |].
      rewrite (try_catch_thrown _ _ _ _ _
                 (WorkerSpec.handleChat_nobody E request w0 B)).
      reflexivity. }
  destruct (Worker.route request "GET" "/history") eqn:Rhist.
  { eexists. eexists. split; [reflexivity |].
    left. split; [reflexivity | right]. exact (route_method _ _ _ Rhist). }
  destruct (Worker.route request "POST" "/profile") eqn:Rprof.
  { destruct (Worker.body request) as [b |] eqn:B.
    - rewrite (try_catch_returned _ _ _ _ _
                 (WorkerSpec.updateProfile_reliable E request w0 b R B)).
      eexists. eexists. split; [reflexivity |].
      right. right. right. left. split; [reflexivity |].
      split; [reflexivity |]. eexists. reflexivity.
    - apply (Same (mkResponse 500 (ErrorJson "Internal server error")));
        [discriminate |].
      unfold try_catch, Worker.updateProfile, Worker.request_json, bind.
      rewrite B. reflexivity. }
  destruct (Worker.route request "GET" "/profile") eqn:Rget.
  { eexists. eexists. split; [reflexivity |].
    left. split; [reflexivity | right]. exact (route_method _ _ _ Rget). }
  destruct (Worker.route request "POST" "/inject-briefing").
  { destruct (Worker.body request) as [b |] eqn:B.
    - destruct (Worker.briefing b) as [[| c r] |] eqn:T.
      + apply (Same (mkResponse 400 (ErrorJson "Briefing content is required")));
          [discriminate |].
        apply try_catch_returned.
        apply (WorkerSpec.injectBriefing_empty E request w0 b B (or_intror T)).
      + rewrite (try_catch_returned _ _ _ _ _
                   (WorkerSpec.injectBriefing_reliable E request w0 b c r R B T)).
        eexists. eexists. split; [reflexivity |].
        right. right. right. right. left. split; [reflexivity |].
        eexists. reflexivity.
      + apply (Same (mkResponse 400 (ErrorJson "Briefing content is required")));
          [discriminate |].
        apply try_catch_returned.
        apply (WorkerSpec.injectBriefing_empty E request w0 b B (or_introl T)).
    - apply (Same (mkResponse 500 (ErrorJson "Internal server error")));
        [discriminate |].
      unfold try_catch, Worker.injectBriefing, Worker.request_json, bind.
      rewrite B. reflexivity. }
  destruct (Worker.route request "POST" "/clear") eqn:Rclear.
  { rewrite (try_catch_returned _ _ _ _ _
               (WorkerSpec.clearHistory_reliable E w0 R)).
    eexists. eexists. split; [reflexivity |].
    right. right. right. right. right. split; [reflexivity |].
    split; reflexivity. }
  apply (Same (mkResponse 404 (Text "Not Found"))); [discriminate |]. reflexivity.
Qed.

(** X1: history is append-only for every operation but clear: whatever the
    request, if it is not POST /clear the history before the call is a prefix
    of the history after it, and at most two messages are added. *)
Theorem history_grows_by_appending (E : Env) (w : Worker.World)
        (request : Worker.Request) :
  reliable E ->
  Worker.route request "POST" "/clear" = false ->
  exists added,
    Worker.chatHistory (after (Worker.fetch E request) w)
    = Worker.chatHistory (Worker.loaded w) ++ added
    /\ (length added <= 2)%nat.
Proof.
  intros R NC. unfold after.
  destruct (fetch_shape E w request R)
    as (resp & w' & F & [[-> _]
                        | [(_ & u & c & ->)
                          | [(_ & u & a & c & ->)
                            | [(_ & _ & p & ->)
                              | [(_ & m & ->) | (_ & C & _)]]]]]);
    rewrite F; cbn [snd].
  - exists []. split; [symmetry; apply app_nil_r | cbn; lia].
  - exists [u]. split; [reflexivity | cbn; lia].
  - exists [u; a]. split; [reflexivity | cbn; lia].
  - exists []. split; [symmetry; apply app_nil_r | cbn; lia].
  - exists [m]. split; [reflexivity | cbn; lia].
  - rewrite C in NC. discriminate NC.
Qed.

Lemma history_grows_by_appending_witness :
  exists added,
    Worker.chatHistory
      (after (Worker.fetch Sample.offline (Worker.sendMessage (js "Hi")))
             Sample.busy)
    = [Sample.hello; Sample.welcome] ++ added
    /\ (length added <= 2)%nat.
Proof.
  apply (history_grows_by_appending Sample.offline Sample.busy
           (Worker.sendMessage (js "Hi"))).
  - intro n. reflexivity.
  - reflexivity.
Defined.

(** X2: the profile changes only through POST /profile: every other request,
    whatever it answers, leaves the profile as it was. *)
Theorem profile_changes_only_by_update (E : Env) (w : Worker.World)
        (request : Worker.Request) :
  reliable E ->
  Worker.route request "POST" "/profile" = false ->
  Worker.financialProfile (after (Worker.fetch E request) w)
  = Worker.financialProfile (Worker.loaded w).
Proof.
  intros R NP. unfold after.
  destruct (fetch_shape E w request R)
    as (resp & w' & F & [[-> _]
                        | [(_ & u & c & ->)
                          | [(_ & u & a & c & ->)
                            | [(_ & P & _)
                              | [(_ & m & ->) | (_ & _ & ->)]]]]]);
    rewrite F; cbn [snd]; try reflexivity.
  rewrite P in NP. discriminate NP.
Qed.

Lemma profile_changes_only_by_update_witness :
  Worker.financialProfile
    (after (Worker.fetch Sample.quiet Worker.clear) Sample.busy)
  = Sample.debtOnly.
Proof.
  apply (profile_changes_only_by_update Sample.quiet Sample.busy Worker.clear).
  - intro n. reflexivity.
  - reflexivity.
Defined.

(** X3: what a successful mutating request leaves survives a restart: after
    a POST answered 200, an object constructed anew over the storage loads
    exactly the history and the profile the old object held. *)
Theorem state_survives_restart (E : Env) (w : Worker.World)
        (request : Worker.Request) (resp : Response) :
  reliable E ->
  Worker.method request = "POST"%string ->
  outcome (Worker.fetch E request) w = Returned resp ->
  status resp = 200 ->
  let w' := after (Worker.fetch E request) w in
  let restarted := Worker.loaded (Worker.construct (Worker.storage w')) in
  Worker.chatHistory restarted = Worker.chatHistory w'
  /\ Worker.financialProfile restarted = Worker.financialProfile w'.
Proof.
  intros R P O S. unfold after. revert O. unfold outcome.
  destruct (fetch_shape E w request R)
    as (resp0 & w' & F & [[_ [N | G]]
                         | [(N & _)
                           | [(_ & u & a & c & ->)
                             | [(_ & _ & p & ->)
                               | [(_ & m & ->) | (_ & _ & ->)]]]]]);
    rewrite F; cbn [fst snd]; intros O; inversion O; subst resp0;
    try (split; reflexivity).
  - contradiction.
  - rewrite P in G. discriminate G.
  - rewrite S in N. discriminate N.
Qed.

Lemma state_survives_restart_witness :
  let w' := after (Worker.fetch Sample.quiet
                     (Worker.sendMessage (js "How do I budget?")))
                  (Worker.construct Sample.noStorage) in
  Worker.chatHistory (Worker.loaded (Worker.construct (Worker.storage w')))
  = Worker.chatHistory w'.
Proof.
  apply (state_survives_restart Sample.quiet (Worker.construct Sample.noStorage)
           (Worker.sendMessage (js "How do I budget?"))
           (mkResponse 200
              (ChatJson (js "Track your spending first.") (Sample.epoch + 1)))).
  - intro n. reflexivity.
  - reflexivity.
  - reflexivity.
  - reflexivity.
Defined.

(** *** Storage faults *)

Create HintDb flag.

Lemma keeps_ret {A} (a : A) : Worker.keeps_flag (ret a).
Proof. intro w. reflexivity. Qed.

Lemma keeps_throw {A} e : Worker.keeps_flag (@throw Worker.World A e).
Proof. intro w. reflexivity. Qed.

Lemma keeps_gets {A} (f : Worker.World -> A) : Worker.keeps_flag (gets f).
Proof. intro w. reflexivity. Qed.

Lemma keeps_bind {A B} (m : M Worker.World A) (k : A -> M Worker.World B) :
  Worker.keeps_flag m -> (forall a, Worker.keeps_flag (k a)) -> Worker.keeps_flag (bind m k).
Proof.
  intros Hm Hk w. unfold bind. specialize (Hm w).
  destruct (m w) as [[a | e] w1]; cbn in *.
  - rewrite (Hk a w1). exact Hm.
  - exact Hm.
Qed.

Lemma keeps_try_catch {A} (m : M Worker.World A) h :
  Worker.keeps_flag m -> (forall e, Worker.keeps_flag (h e)) -> Worker.keeps_flag (try_catch m h).
Proof.
  intros Hm Hh w. unfold try_catch. specialize (Hm w).
  destruct (m w) as [[a | e] w1]; cbn in *.
  - exact Hm.
  - rewrite (Hh e w1). exact Hm.
Qed.

Lemma keeps_modify f :
  (forall w, Worker.initialized (f w) = Worker.initialized w) ->
  Worker.keeps_flag (modify f).
Proof. intros H w. apply H. Qed.

Lemma keeps_storage_op E op : Worker.keeps_flag (Worker.storage_op E op).
Proof.
  intro w. unfold Worker.storage_op.
  destruct (storage_fails E _); reflexivity.
Qed.

Lemma keeps_new_Date E : Worker.keeps_flag (Worker.new_Date E).
Proof. intro w. reflexivity. Qed.

Lemma keeps_AI E c : Worker.keeps_flag (Worker.AI E c).
Proof. intro w. unfold Worker.AI. destruct (AI_run E _ c); reflexivity. Qed.

Lemma keeps_request_json request : Worker.keeps_flag (Worker.request_json request).
Proof.
  unfold Worker.request_json. destruct (Worker.body request);
    [apply keeps_ret | apply keeps_throw].
Qed.

#[local] Hint Resolve keeps_ret keeps_throw keeps_gets keeps_storage_op
  keeps_new_Date keeps_AI keeps_request_json : flag.

Ltac keeps :=
  repeat first
    [ apply keeps_bind; [| intro]
    | apply keeps_try_catch; [| intro]
    | apply keeps_modify; intro; reflexivity
    | solve [auto with flag] ].

Lemma keeps_saveState E : Worker.keeps_flag (Worker.saveState E).
Proof.
  unfold Worker.saveState, Worker.storage_put_chatHistory,
    Worker.storage_put_financialProfile. keeps.
Qed.

Lemma keeps_dispatch E request : Worker.keeps_flag (Worker.dispatch E request).
Proof.
  pose proof (keeps_saveState E) as KS.
  unfold Worker.dispatch.
  repeat match goal with
         | |- Worker.keeps_flag (if ?c then _ else _) => destruct c
         end.
  - unfold Worker.handleChat. apply keeps_bind; [auto with flag | intro b].
    destruct (option_map trim (Worker.message b)) as [[| c r] |];
      unfold Worker.push; keeps; try exact KS.
  - unfold Worker.getHistory. keeps.
  - unfold Worker.updateProfile. keeps; try exact KS.
  - unfold Worker.getProfile. keeps.
  - unfold Worker.injectBriefing. apply keeps_bind; [auto with flag | intro b].
    destruct (Worker.briefing b) as [[| c r] |]; unfold Worker.push; keeps;
      try exact KS.
  - unfold Worker.clearHistory. keeps; try exact KS.
  - keeps.
Qed.

(** X4: once the object is initialized, every request is answered, whatever
    storage and the model do: no exception leaves fetch, and the object stays
    initialized. *)
Theorem initialized_object_always_answers (E : Env) (w : Worker.World)
        (request : Worker.Request) :
  Worker.initialized w = true ->
  (exists resp, outcome (Worker.fetch E request) w = Returned resp)
  /\ Worker.initialized (after (Worker.fetch E request) w) = true.
Proof.
  intros I. unfold outcome, after. rewrite (fetch_initialized E w request I).
  split.
  - unfold try_catch. destruct (Worker.dispatch E request w) as [[resp | e] w1];
      eexists; reflexivity.
  - rewrite <- I. apply keeps_try_catch; [apply keeps_dispatch | intro; apply keeps_ret].
Qed.

Lemma initialized_object_always_answers_witness :
  exists resp,
    outcome (Worker.fetch (Sample.flaky 2) Worker.clear) Sample.busy = Returned resp.
Proof.
  apply (initialized_object_always_answers (Sample.flaky 2) Sample.busy Worker.clear).
  reflexivity.
Defined.

(** X5: a load that fails is retried: when either read of the first request
    fails, fetch throws, and the object is left uninitialized with its fields
    and its storage as they were, so the next request loads again. *)
Theorem failed_load_leaves_object_uninitialized (E : Env) (w : Worker.World)
        (request : Worker.Request) :
  Worker.initialized w = false ->
  storage_fails E (length (Worker.storageLog w)) = true
  \/ storage_fails E (S (length (Worker.storageLog w))) = true ->
  let w' := after (Worker.fetch E request) w in
  outcome (Worker.fetch E request) w = Thrown StorageError
  /\ Worker.initialized w' = false
  /\ Worker.chatHistory w' = Worker.chatHistory w
  /\ Worker.financialProfile w' = Worker.financialProfile w
  /\ Worker.storage w' = Worker.storage w.
Proof.
  intros I F. destruct w as [h p i st c l a]. cbn in I, F. subst i.
  unfold after, outcome, Worker.fetch, Worker.initialize,
    Worker.storage_get_chatHistory, Worker.storage_get_financialProfile,
    Worker.storage_op.
  cbv [bind gets modify ret]. cbn [Worker.initialized Worker.storageLog].
  destruct (storage_fails E (length l)) eqn:F1.
  - cbn. repeat split.
  - destruct F as [F | F]; [discriminate F |].
    cbn. rewrite length_app, Nat.add_comm. cbn. rewrite F. cbn.
    repeat split.
Qed.

Lemma failed_load_leaves_object_uninitialized_witness :
  outcome (Worker.fetch (Sample.flaky 1) Worker.getHistoryRequest)
          (Worker.construct Sample.busyStorage) = Thrown StorageError
  /\ Worker.initialized
       (after (Worker.fetch (Sample.flaky 1) Worker.getHistoryRequest)
              (Worker.construct Sample.busyStorage)) = false.
Proof.
  destruct (failed_load_leaves_object_uninitialized (Sample.flaky 1)
              (Worker.construct Sample.busyStorage) Worker.getHistoryRequest
              eq_refl (or_intror eq_refl)) as (O & I & _).
  split; [exact O | exact I].
Defined.

(** X6: a clear that cannot be written is answered 500 and is lost at the
    next restart: when the first write fails, the in-memory history is
    emptied but storage keeps what it held, so an object constructed anew
    loads the old history again. *)
Theorem unsaved_clear_is_undone_by_restart (E : Env) (w : Worker.World) :
  Worker.initialized w = true ->
  storage_fails E (length (Worker.storageLog w)) = true ->
  let w' := after (Worker.fetch E Worker.clear) w in
  outcome (Worker.fetch E Worker.clear) w
    = Returned (mkResponse 500 (ErrorJson "Internal server error"))
  /\ Worker.chatHistory w' = []
  /\ Worker.storage w' = Worker.storage w
  /\ Worker.chatHistory (Worker.loaded (Worker.construct (Worker.storage w')))
     = match Worker.stored_chatHistory (Worker.storage w) with
       | Some h => h
       | None => []
       end.
Proof.
  intros I F. unfold after, outcome. rewrite (fetch_initialized E w _ I).
  destruct w as [h p i st c l a]. cbn in F.
  unfold Worker.clear, try_catch, Worker.dispatch. cbn [Worker.route Worker.method
    Worker.pathname String.eqb Ascii.eqb Bool.eqb andb].
  unfold Worker.clearHistory, Worker.saveState, Worker.storage_put_chatHistory,
    Worker.storage_op.
  cbv [bind gets modify ret]. cbn [Worker.set_chatHistory Worker.storageLog].
  rewrite F. cbn. repeat split.
Qed.

Lemma unsaved_clear_is_undone_by_restart_witness :
  let w' := after (Worker.fetch (Sample.flaky 2) Worker.clear) Sample.busy in
  Worker.chatHistory w' = []
  /\ Worker.chatHistory (Worker.loaded (Worker.construct (Worker.storage w')))
     = [Sample.hello; Sample.welcome].
Proof.
  destruct (unsaved_clear_is_undone_by_restart (Sample.flaky 2) Sample.busy
              eq_refl eq_refl) as (_ & H & _ & L).
  split; [exact H | exact L].
Defined.

(** X7: saving is two writes, and the second can fail alone: when the write
    of the profile fails after the write of the history, updateProfile
    answers 500, the merged profile stays in memory (a later getProfile
    returns it), the stored profile is the old one and the stored history is
    the current one. *)
Theorem unsaved_profile_is_served_from_memory (E : Env) (w : Worker.World)
        (fields : FinancialProfile) :
  Worker.initialized w = true ->
  storage_fails E (length (Worker.storageLog w)) = false ->
  storage_fails E (S (length (Worker.storageLog w))) = true ->
  let w' := after (Worker.fetch E (Worker.updateProfileRequest fields)) w in
  let merged := Worker.with_lastUpdated (Date_now E (Worker.clockReads w))
                  (Worker.spread (Worker.financialProfile w) fields) in
  outcome (Worker.fetch E (Worker.updateProfileRequest fields)) w
    = Returned (mkResponse 500 (ErrorJson "Internal server error"))
  /\ Worker.financialProfile w' = merged
  /\ Worker.stored_financialProfile (Worker.storage w')
     = Worker.stored_financialProfile (Worker.storage w)
  /\ Worker.stored_chatHistory (Worker.storage w') = Some (Worker.chatHistory w)
  /\ outcome (Worker.fetch E Worker.getProfileRequest) w'
     = Returned (mkResponse 200 (ProfileJson merged)).
Proof.
  intros I F1 F2. unfold after, outcome. rewrite (fetch_initialized E w _ I).
  destruct w as [h p i st c l a]. cbn in I, F1, F2. subst i.
  unfold Worker.updateProfileRequest, try_catch, Worker.dispatch.
  cbn [Worker.route Worker.method Worker.pathname String.eqb Ascii.eqb Bool.eqb
       andb].
  unfold Worker.updateProfile, Worker.request_json, Worker.saveState,
    Worker.storage_put_chatHistory, Worker.storage_put_financialProfile,
    Worker.storage_op, Worker.new_Date.
  cbv [bind gets modify ret]. cbn [Worker.body Worker.updates].
  WorkerSpec.unfold_world. rewrite F1. WorkerSpec.unfold_world.
  rewrite length_app, Nat.add_comm. cbn [length Nat.add]. rewrite F2.
  cbn. repeat split.
Qed.

Lemma unsaved_profile_is_served_from_memory_witness :
  let w' := after (Worker.fetch (Sample.flaky 3)
                     (Worker.updateProfileRequest Sample.incomeOnly))
                  Sample.busy in
  monthlyIncome (Worker.financialProfile w') = Some 1500
  /\ Worker.stored_financialProfile (Worker.storage w') = Some Sample.debtOnly.
Proof.
  destruct (unsaved_profile_is_served_from_memory (Sample.flaky 3) Sample.busy
              Sample.incomeOnly eq_refl eq_refl eq_refl) as (_ & M & S & _).
  split; [rewrite M; reflexivity | exact S].
Defined.

(** X8: getHistory and getProfile are reads: on an initialized object, or on
    any object when storage does not fail, each answers 200 with the current
    history or profile and leaves nothing changed but the load itself. *)
Theorem reads_change_nothing (E : Env) (w : Worker.World) :
  Worker.initialized w = true \/ reliable E ->
  Worker.fetch E Worker.getHistoryRequest w
  = (Returned (mkResponse 200
                 (HistoryJson (Worker.chatHistory (Worker.loaded w)))),
     Worker.loaded w)
  /\ Worker.fetch E Worker.getProfileRequest w
     = (Returned (mkResponse 200
                    (ProfileJson (Worker.financialProfile (Worker.loaded w)))),
        Worker.loaded w).
Proof.
  intros [I | R].
  - rewrite (loaded_of_initialized w I), !(fetch_initialized E w _ I).
    split; reflexivity.
  - rewrite !(WorkerSpec.fetch_loaded E _ w R). split; reflexivity.
Qed.

Lemma reads_change_nothing_witness :
  Worker.fetch (Sample.flaky 2) Worker.getHistoryRequest Sample.busy
  = (Returned (mkResponse 200 (HistoryJson [Sample.hello; Sample.welcome])),
     Sample.busy).
Proof.
  destruct (reads_change_nothing (Sample.flaky 2) Sample.busy (or_introl eq_refl))
    as [H _].
  exact H.
Defined.

(** *** Updates of the profile and the prompt *)

Lemma spread_spread p u1 u2 t1 t2 :
  Worker.with_lastUpdated t2
    (Worker.spread (Worker.with_lastUpdated t1 (Worker.spread p u1)) u2)
  = Worker.with_lastUpdated t2 (Worker.spread p (Worker.spread u1 u2)).
Proof.
  unfold Worker.with_lastUpdated, Worker.spread. cbn.
  f_equal.
  - destruct (monthlyIncome u2), (monthlyIncome u1); reflexivity.
  - destruct (totalDebt u2), (totalDebt u1); reflexivity.
  - destruct (savingsGoal u2), (savingsGoal u1); reflexivity.
  - destruct (emergencyFund u2), (emergencyFund u1); reflexivity.
  - destruct (financialGoals u2), (financialGoals u1); reflexivity.
Qed.

Lemma fetch_updateProfile (E : Env) (w : Worker.World) fields :
  reliable E ->
  after (Worker.fetch E (Worker.updateProfileRequest fields)) w
  = Worker.saved
      (Worker.set_financialProfile
         (Worker.with_lastUpdated (Date_now E (Worker.clockReads w))
            (Worker.spread (Worker.financialProfile (Worker.loaded w)) fields))
         (Worker.tick (Worker.loaded w))).
Proof.
  intros R. unfold after. rewrite (WorkerSpec.fetch_loaded E _ w R).
  change (Worker.dispatch E (Worker.updateProfileRequest fields))
    with (Worker.updateProfile E (Worker.updateProfileRequest fields)).
  rewrite (try_catch_returned _ _ _ _ _
             (WorkerSpec.updateProfile_reliable E
                (Worker.updateProfileRequest fields) (Worker.loaded w)
                (Worker.mkBody None None None fields) R eq_refl)).
  cbn [snd]. rewrite loaded_clockReads. reflexivity.
Qed.

(** X9: updates compose and never remove a field: two successive updates
    leave the profile that one update with the second set of fields laid over
    the first would leave (with the time of the second call), and a field
    that has a value keeps having one after any update, since a field that is
    not supplied is kept. *)
Theorem successive_updates_compose (E : Env) (w : Worker.World)
        (u1 u2 : FinancialProfile) :
  reliable E ->
  let p0 := Worker.financialProfile (Worker.loaded w) in
  let w1 := after (Worker.fetch E (Worker.updateProfileRequest u1)) w in
  let w2 := after (Worker.fetch E (Worker.updateProfileRequest u2)) w1 in
  let p1 := Worker.financialProfile w1 in
  Worker.financialProfile w2
  = Worker.with_lastUpdated (Date_now E (S (Worker.clockReads w)))
      (Worker.spread p0 (Worker.spread u1 u2))
  /\ (monthlyIncome p0 <> None -> monthlyIncome p1 <> None)
  /\ (totalDebt p0 <> None -> totalDebt p1 <> None)
  /\ (savingsGoal p0 <> None -> savingsGoal p1 <> None)
  /\ (emergencyFund p0 <> None -> emergencyFund p1 <> None)
  /\ (financialGoals p0 <> None -> financialGoals p1 <> None)
  /\ lastUpdated p1 <> None.
Proof.
  intros R p0 w1 w2 p1. subst p1 w2.
  assert (W1 : w1 = Worker.saved
                 (Worker.set_financialProfile
                    (Worker.with_lastUpdated (Date_now E (Worker.clockReads w))
                       (Worker.spread p0 u1))
                    (Worker.tick (Worker.loaded w))))
    by apply (fetch_updateProfile E w u1 R).
  split.
  - rewrite (fetch_updateProfile E w1 u2 R).
    rewrite (loaded_of_initialized w1)
      by (rewrite W1; cbn; apply WorkerSpec.loaded_initialized).
    rewrite W1. cbn [Worker.saved Worker.set_financialProfile Worker.tick
                     Worker.financialProfile Worker.clockReads].
    rewrite loaded_clockReads. apply spread_spread.
  - rewrite W1. cbn.
    repeat split; try discriminate;
      match goal with
      | |- ?f p0 <> None -> _ => destruct (f u1); [discriminate | intro H; exact H]
      end.
Qed.

Lemma successive_updates_compose_witness :
  Worker.financialProfile
    (after (Worker.fetch Sample.quiet (Worker.updateProfileRequest Sample.debtOnly))
       (after (Worker.fetch Sample.quiet
                 (Worker.updateProfileRequest Sample.incomeOnly))
              (Worker.construct Sample.noStorage)))
  = mkProfile (Some 1500) (Some 2000) None None None (Some (Sample.epoch + 1)).
Proof.
  destruct (successive_updates_compose Sample.quiet
              (Worker.construct Sample.noStorage)
              Sample.incomeOnly Sample.debtOnly) as [H _].
  - intro n. reflexivity.
  - exact H.
Defined.

Lemma sendMessage_aiLog (E : Env) (w : Worker.World) text c r :
  reliable E -> trim text = c :: r ->
  Worker.aiLog (after (Worker.fetch E (Worker.sendMessage text)) w)
  = Worker.aiLog w ++ [Worker.chatCall E (c :: r) (Worker.loaded w)].
Proof.
  intros R T. unfold after.
  rewrite (WorkerSpec.fetch_loaded E _ w R), dispatch_sendMessage.
  set (w0 := Worker.loaded w).
  set (b := Worker.mkBody (Some text) None None emptyProfile).
  assert (B : Worker.body (Worker.sendMessage text) = Some b) by reflexivity.
  assert (T' : option_map trim (Worker.message b) = Some (c :: r))
    by (cbn; rewrite T; reflexivity).
  destruct (AI_run E (length (Worker.aiLog w0)) (Worker.chatCall E (c :: r) w0))
    as [ai |] eqn:A.
  - rewrite (try_catch_returned _ _ _ _ _
               (WorkerSpec.handleChat_resolves E _ w0 b c r ai R B T' A)).
    cbn. unfold w0. rewrite loaded_aiLog. reflexivity.
  - rewrite (try_catch_thrown _ _ _ _ _
               (WorkerSpec.handleChat_rejects E _ w0 b c r B T' A)).
    cbn. unfold w0. rewrite loaded_aiLog. reflexivity.
Qed.

(** X10: once the profile has been updated, every chat carries the profile
    summary: an update always sets lastUpdated, so the profile is never empty
    afterwards, and the system message of the next sendMessage is the system
    prompt followed by the summary of the updated profile, even when the
    update supplied no field at all. *)
Theorem chat_after_update_carries_summary (E : Env) (w : Worker.World)
        (fields : FinancialProfile) (text : jsstring) :
  reliable E -> trim text <> [] ->
  let w1 := after (Worker.fetch E (Worker.updateProfileRequest fields)) w in
  let w2 := after (Worker.fetch E (Worker.sendMessage text)) w1 in
  exists call,
    Worker.aiLog w2 = Worker.aiLog w ++ [call]
    /\ hd_error (messages call)
       = Some (mkAiMessage system
                 (Worker.SYSTEM_PROMPT
                  ++ Worker.profileSummary (Worker.financialProfile w1))).
Proof.
  intros R T w1 w2. subst w2.
  destruct (trim text) as [| c r] eqn:Tr; [contradiction |].
  assert (W1 : w1 = Worker.saved
                 (Worker.set_financialProfile
                    (Worker.with_lastUpdated (Date_now E (Worker.clockReads w))
                       (Worker.spread (Worker.financialProfile (Worker.loaded w))
                                      fields))
                    (Worker.tick (Worker.loaded w))))
    by apply (fetch_updateProfile E w fields R).
  assert (I1 : Worker.initialized w1 = true)
    by (rewrite W1; cbn; apply WorkerSpec.loaded_initialized).
  assert (A1 : Worker.aiLog w1 = Worker.aiLog w)
    by (rewrite W1; cbn; apply loaded_aiLog).
  exists (Worker.chatCall E (c :: r) w1).
  split.
  - rewrite (sendMessage_aiLog E w1 text c r R Tr), A1.
    rewrite (loaded_of_initialized w1 I1). reflexivity.
  - unfold Worker.chatCall. cbn [messages hd_error]. do 2 f_equal.
    apply contextualSystemPrompt_cases.
    rewrite W1. cbn. discriminate.
Qed.

Lemma chat_after_update_carries_summary_witness :
  exists call,
    Worker.aiLog
      (after (Worker.fetch Sample.quiet (Worker.sendMessage (js "Hi")))
         (after (Worker.fetch Sample.quiet
                   (Worker.updateProfileRequest emptyProfile))
                (Worker.construct Sample.noStorage)))
    = [] ++ [call]
    /\ hd_error (messages call)
       = Some (mkAiMessage system
                 (Worker.SYSTEM_PROMPT
                  ++ Worker.profileSummary
                       (mkProfile None None None None None (Some Sample.epoch)))).
Proof.
  apply (chat_after_update_carries_summary Sample.quiet
           (Worker.construct Sample.noStorage) emptyProfile (js "Hi")).
  - intro n. reflexivity.
  - vm_compute. discriminate.
Defined.

(** X11: on any history, a sendMessage whose model call resolves appends
    exactly two messages, the trimmed text as user and the reply as
    assistant, persists the history and answers with the reply.  The reply is
    the model's text when it gave a non-empty one, 'No response generated'
    when the text is missing or empty, and the apology when the result has no
    response at all. *)
Theorem sendMessage_reply_or_fallback (E : Env) (w : Worker.World)
        (text : jsstring) (c : N) (r : jsstring) (result : AiResponse) :
  reliable E -> trim text = c :: r ->
  AI_run E (length (Worker.aiLog w)) (Worker.chatCall E (c :: r) (Worker.loaded w))
  = AiResolves result ->
  let w' := after (Worker.fetch E (Worker.sendMessage text)) w in
  let reply :=
    match result with
    | AiText (Some (x :: s)) => x :: s
    | AiText (Some []) | AiText None => js "No response generated"
    | AiStream =>
        js "I apologize, but I encountered an issue generating a response. Please try again."
    end in
  let u := mkChatMessage user (trim text) (Date_now E (Worker.clockReads w)) in
  let a := mkChatMessage assistant reply (Date_now E (S (Worker.clockReads w))) in
  Worker.chatHistory w' = Worker.chatHistory (Worker.loaded w) ++ [u; a]
  /\ Worker.stored_chatHistory (Worker.storage w') = Some (Worker.chatHistory w')
  /\ outcome (Worker.fetch E (Worker.sendMessage text)) w
     = Returned (mkResponse 200 (ChatJson reply (timestamp a))).
Proof.
  intros R T A w' reply u a. subst w'. unfold after, outcome.
  rewrite (WorkerSpec.fetch_loaded E _ w R), dispatch_sendMessage.
  set (w0 := Worker.loaded w) in *.
  set (b := Worker.mkBody (Some text) None None emptyProfile).
  assert (B : Worker.body (Worker.sendMessage text) = Some b) by reflexivity.
  assert (T' : option_map trim (Worker.message b) = Some (c :: r))
    by (cbn; rewrite T; reflexivity).
  assert (A' : AI_run E (length (Worker.aiLog w0)) (Worker.chatCall E (c :: r) w0)
               = AiResolves result)
    by (unfold w0 at 1; rewrite loaded_aiLog; exact A).
  rewrite (try_catch_returned _ _ _ _ _
             (WorkerSpec.handleChat_resolves E _ w0 b c r result R B T' A')).
  assert (C : Worker.clockReads w0 = Worker.clockReads w) by apply loaded_clockReads.
  assert (Ua : Worker.userTurn E (c :: r) w0 = u)
    by (unfold Worker.userTurn, u; rewrite C, T; reflexivity).
  assert (Aa : Worker.assistantTurn E result w0 = a).
  { unfold Worker.assistantTurn, a, reply. rewrite C. f_equal.
    destruct result as [[[| x s] |] |]; reflexivity. }
  cbn [fst snd Worker.saved Worker.set_chatHistory Worker.chatHistory
       Worker.storage Worker.stored_chatHistory].
  rewrite Ua, Aa. repeat split.
Qed.

Lemma sendMessage_reply_or_fallback_witness :
  map content
    (Worker.chatHistory
       (after (Worker.fetch
                 (mkEnv (fun _ _ => AiResolves (AiText (Some [])))
                        (Date_now Sample.quiet) (fun _ => false))
                 (Worker.sendMessage (js " Hi ")))
              Sample.busy))
  = [js "Hello"; js "Welcome back."; js "Hi"; js "No response generated"].
Proof.
  destruct (sendMessage_reply_or_fallback
              (mkEnv (fun _ _ => AiResolves (AiText (Some [])))
                     (Date_now Sample.quiet) (fun _ => false))
              Sample.busy (js " Hi ") 72%N [105%N] (AiText (Some [])))
    as (H & _).
  - intro n. reflexivity.
  - reflexivity.
  - reflexivity.
  - rewrite H. reflexivity.
Defined.

Lemma join_empty sep l :
  sep <> [] -> join sep l = [] -> l = [] \/ l = [[]].
Proof.
  intros S H. destruct l as [| x [| y rest]]; cbn in H.
  - left. reflexivity.
  - right. rewrite H. reflexivity.
  - exfalso. apply app_eq_nil in H. destruct H as [_ H].
    apply app_eq_nil in H. destruct H as [H _]. contradiction.
Qed.

(** X12: the goals line of the profile summary reads 'Not set' when the
    list of goals is absent, empty, or holds one empty string; every other
    list is rendered as its entries joined by a comma and a space. *)
Theorem goals_line_rendering (l : list jsstring) :
  Worker.goals None = js "Not set"
  /\ Worker.goals (Some []) = js "Not set"
  /\ Worker.goals (Some [[]]) = js "Not set"
  /\ (l <> [] -> l <> [[]] -> Worker.goals (Some l) = join (js ", ") l).
Proof.
  do 3 (split; [reflexivity |]).
  intros N1 N2. unfold Worker.goals, or_string. cbn [option_map].
  destruct (join (js ", ") l) as [| x s] eqn:J; [| reflexivity].
  apply join_empty in J; [| discriminate].
  destruct J; contradiction.
Qed.

Lemma goals_line_rendering_witness :
  Worker.goals (Some [js "Save"; js "Invest"]) = js "Save, Invest".
Proof.
  destruct (goals_line_rendering [js "Save"; js "Invest"]) as (_ & _ & _ & H).
  rewrite H; [reflexivity | discriminate | discriminate].
Defined.

(** X13: routes are matched exactly, method and path: a request that is none
    of the six answers 404 'Not Found' and leaves the object as it was loaded;
    in particular the object does not serve the path '/injectBriefing' that
    the backend workflow posts to. *)
Theorem unknown_route_is_not_found (E : Env) (w : Worker.World)
        (request : Worker.Request) :
  reliable E ->
  Worker.route request "POST" "/chat" = false ->
  Worker.route request "GET" "/history" = false ->
  Worker.route request "POST" "/profile" = false ->
  Worker.route request "GET" "/profile" = false ->
  Worker.route request "POST" "/inject-briefing" = false ->
  Worker.route request "POST" "/clear" = false ->
  Worker.fetch E request w
  = (Returned (mkResponse 404 (Text "Not Found")), Worker.loaded w).
Proof.
  intros R H1 H2 H3 H4 H5 H6.
  rewrite (WorkerSpec.fetch_loaded E request w R).
  unfold Worker.dispatch. rewrite H1, H2, H3, H4, H5, H6. reflexivity.
Qed.

Lemma unknown_route_is_not_found_witness :
  Worker.fetch Sample.quiet
    (Worker.mkRequest "POST" "/injectBriefing"
       (Some (Worker.mkBody None (Some (js "X")) None emptyProfile)))
    Sample.busy
  = (Returned (mkResponse 404 (Text "Not Found")), Sample.busy).
Proof.
  apply (unknown_route_is_not_found Sample.quiet Sample.busy); try reflexivity.
  intro n. reflexivity.
Defined.

(* ------------------------------------------------------------------------- *)
(** ** Properties of src/BriefingWorkflow.ts *)

Lemma In_firstn {A} n (l : list A) x : In x (firstn n l) -> In x l.
Proof.
  intros H. rewrite <- (firstn_skipn n l). apply in_or_app. left. exact H.
Qed.

Lemma NoDup_firstn {A} n (l : list A) : NoDup l -> NoDup (firstn n l).
Proof.
  intros H. rewrite <- (firstn_skipn n l) in H.
  exact (NoDup_app_remove_r _ _ H).
Qed.

Lemma mockNews_NoDup : NoDup Briefing.mockNews.
Proof.
  unfold Briefing.mockNews.
  repeat (constructor; [cbn; intuition discriminate |]).
  constructor.
Qed.

Lemma floor_of_twice (random : Q) :
  (0 <= random)%Q -> (random < 1)%Q ->
  Qfloor (random * 2) = 0 \/ Qfloor (random * 2) = 1.
Proof.
  intros L U.
  assert (L2 : (0 <= random * 2)%Q).
  { apply Qmult_le_0_compat; [exact L | discriminate]. }
  assert (U2 : (random * 2 < 2)%Q).
  { setoid_replace (2 : Q) with (1 * 2)%Q at 2 by reflexivity.
    apply Qmult_lt_compat_r; [reflexivity | exact U]. }
  assert (F0 : 0 <= Qfloor (random * 2)).
  { change 0 with (Qfloor 0). apply Qfloor_resp_le. exact L2. }
  assert (F2 : Qfloor (random * 2) < 2).
  { rewrite Zlt_Qlt. eapply Qle_lt_trans; [apply Qfloor_le | exact U2]. }
  lia.
Qed.

(** X14: the news step hands on two or three of the four mock items, each
    at most once, whatever order the shuffle leaves and whatever the random
    draw is. *)
Theorem fetch_financial_news_bounds (shuffled : list Briefing.FinancialNews)
        (random : Q) :
  Permutation Briefing.mockNews shuffled ->
  (0 <= random)%Q -> (random < 1)%Q ->
  let news := Briefing.fetch_financial_news shuffled random in
  (length news = 2%nat \/ length news = 3%nat)
  /\ NoDup news
  /\ incl news Briefing.mockNews.
Proof.
  intros P L U news. subst news. unfold Briefing.fetch_financial_news.
  assert (Len : length shuffled = 4%nat)
    by (rewrite <- (Permutation_length P); reflexivity).
  split; [| split].
  - rewrite length_firstn, Len.
    destruct (floor_of_twice random L U) as [F | F]; rewrite F; cbn; [left | right];
      reflexivity.
  - apply NoDup_firstn. exact (Permutation_NoDup P mockNews_NoDup).
  - intros x H. apply In_firstn in H.
    exact (Permutation_in x (Permutation_sym P) H).
Qed.

Lemma fetch_financial_news_bounds_witness :
  length (Briefing.fetch_financial_news (rev Briefing.mockNews) (3 # 4)) = 3%nat.
Proof.
  destruct (fetch_financial_news_bounds (rev Briefing.mockNews) (3 # 4))
    as ([H | H] & _).
  - apply Permutation_rev.
  - discriminate.
  - reflexivity.
  - vm_compute in H. discriminate H.
  - exact H.
Defined.

Lemma loaded_log_ai c w :
  Worker.loaded (Worker.log_ai c w) = Worker.log_ai c (Worker.loaded w).
Proof.
  unfold Worker.loaded. cbn [Worker.log_ai Worker.initialized].
  destruct (Worker.initialized w); reflexivity.
Qed.

Lemma summary_step_run (E : Env) (w : Worker.World)
      (news : list Briefing.FinancialNews) :
  match AI_run E (length (Worker.aiLog w)) (Briefing.summaryCall news) with
  | AiResolves r =>
      exists s, s <> []
        /\ Briefing.generate_student_summary E news w
           = (Returned s, Worker.log_ai (Briefing.summaryCall news) w)
        /\ (forall x t, r = AiText (Some (x :: t)) -> s = x :: t)
  | AiRejects =>
      Briefing.generate_student_summary E news w
      = (Thrown InferenceError, Worker.log_ai (Briefing.summaryCall news) w)
  end.
Proof.
  unfold Briefing.generate_student_summary, bind, Worker.AI.
  destruct (AI_run E (length (Worker.aiLog w)) (Briefing.summaryCall news))
    as [r |]; [| reflexivity].
  eexists. split; [| split; [reflexivity |]].
  - apply or_string_nonempty. discriminate.
  - intros x t ->. reflexivity.
Qed.

(** X15: the summary step makes one call to the model, with a system message
    and the prompt as user message and a budget of 512 tokens, and touches
    nothing else.  When the call resolves the step returns a text that is
    never empty (the model's text, or a fallback when there is none); when it
    is rejected the step throws. *)
Theorem summary_step_never_empty (E : Env) (w : Worker.World)
        (news : list Briefing.FinancialNews) :
  let call := Briefing.summaryCall news in
  let w' := Worker.log_ai call w in
  length (messages call) = 2%nat
  /\ map ai_role (messages call) = [system; user]
  /\ max_tokens call = 512
  /\ match AI_run E (length (Worker.aiLog w)) call with
     | AiResolves r =>
         exists s, s <> []
           /\ Briefing.generate_student_summary E news w = (Returned s, w')
           /\ (forall x t, r = AiText (Some (x :: t)) -> s = x :: t)
     | AiRejects =>
         Briefing.generate_student_summary E news w = (Thrown InferenceError, w')
     end.
Proof.
  intros call w'. do 3 (split; [reflexivity |]).
  exact (summary_step_run E w news).
Qed.

(** X16: a run whose model call resolves and whose storage does not fail
    appends exactly one briefing to the history of the object, the marker
    followed by the (never empty) summary, persists it, and returns a
    completion message that counts the news items handed on and reports the
    briefing as injected. *)
Theorem run_appends_one_briefing (E : Env) (toISOString : Z -> jsstring)
        (w : Worker.World) (userId : jsstring)
        (shuffled : list Briefing.FinancialNews) (random : Q) (r : AiResponse) :
  reliable E ->
  let news := Briefing.fetch_financial_news shuffled random in
  AI_run E (length (Worker.aiLog w)) (Briefing.summaryCall news) = AiResolves r ->
  let w' := after (Briefing.run E toISOString userId shuffled random) w in
  exists s,
    s <> []
    /\ outcome (Briefing.run E toISOString userId shuffled random) w
       = Returned (Briefing.completionMessage toISOString userId (length news)
                     true (Date_now E (S (Worker.clockReads w))))
    /\ Worker.chatHistory w'
       = Worker.chatHistory (Worker.loaded w)
         ++ [mkChatMessage assistant (Worker.briefingMarker ++ s)
                           (Date_now E (Worker.clockReads w))]
    /\ Worker.stored_chatHistory (Worker.storage w') = Some (Worker.chatHistory w').
Proof.
  intros R news A w'. subst w'.
  pose proof (summary_step_run E w news) as G.
  fold news in A. rewrite A in G.
  destruct G as (s & NE & G & _).
  exists s. split; [exact NE |].
  destruct s as [| c t]; [contradiction |].
  assert (Run :
    Briefing.run E toISOString userId shuffled random w
    = (Returned (Briefing.completionMessage toISOString userId (length news)
                   true (Date_now E (S (Worker.clockReads w)))),
       Worker.tick
         (Worker.saved
            (Worker.set_chatHistory
               (Worker.chatHistory (Worker.loaded w) ++
                  [mkChatMessage assistant (Worker.briefingMarker ++ c :: t)
                                 (Date_now E (Worker.clockReads w))])
               (Worker.tick
                  (Worker.log_ai (Briefing.summaryCall news) (Worker.loaded w))))))).
  { unfold Briefing.run. fold news.
    unfold bind at 1. rewrite G.
    unfold bind at 1. unfold Worker.inject_briefing_to_chat. unfold bind at 1.
    change (Worker.mkRequest "POST" "/inject-briefing"
              (Some (Worker.mkBody None (Some (c :: t)) None emptyProfile)))
      with (Worker.injectBriefingRequest (c :: t) None).
    rewrite (fetch_injectBriefing E _ c t None R).
    rewrite loaded_log_ai.
    cbn [Worker.ok status negb andb Z.leb Z.compare Pos.compare Pos.compare_cont
         ret payload].
    unfold bind, ret, Worker.new_Date.
    cbn [fst snd Worker.saved Worker.set_chatHistory Worker.tick Worker.log_ai
         Worker.chatHistory Worker.clockReads Worker.storage
         Worker.stored_chatHistory Briefing.success].
    rewrite loaded_clockReads. reflexivity. }
  unfold after, outcome. rewrite Run. cbn. repeat split.
Qed.

Lemma run_appends_one_briefing_witness :
  exists s,
    s <> []
    /\ Worker.chatHistory
         (after (Briefing.run Sample.quiet Sample.isoStub (js "default-user")
                   Briefing.mockNews (1 # 4))
                Sample.busy)
       = [Sample.hello; Sample.welcome]
         ++ [mkChatMessage assistant (Worker.briefingMarker ++ s) (Sample.epoch + 2)].
Proof.
  destruct (run_appends_one_briefing Sample.quiet Sample.isoStub Sample.busy
              (js "default-user") Briefing.mockNews (1 # 4)
              (AiText (Some (js "Track your spending first."))))
    as (s & NE & _ & H & _).
  - intro n. reflexivity.
  - reflexivity.
  - exists s. split; [exact NE | exact H].
Defined.

(* ------------------------------------------------------------------------- *)
(** ** Properties of the backend implementation *)

Lemma backend_loaded_log_ai c w :
  Backend.loaded (Backend.log_ai c w) = Backend.log_ai c (Backend.loaded w).
Proof.
  unfold Backend.loaded. cbn [Backend.log_ai Backend.history].
  destruct (length (Backend.history w) =? 0)%nat; reflexivity.
Qed.

(** X17: the backend object has no catch around its handler: when the model
    call of a chat request is rejected, fetch itself throws, no response is
    built, the user message already pushed stays in memory and storage is
    not written. *)
Theorem backend_rejected_call_escapes_fetch (E : Env) (w : Backend.World)
        (text : jsstring) :
  reliable E ->
  AI_run E (length (Backend.aiLog w))
        (Backend.chatCall E text (Backend.loaded w)) = AiRejects ->
  let w' := after (Backend.fetch E (Backend.sendMessage text)) w in
  outcome (Backend.fetch E (Backend.sendMessage text)) w = Thrown InferenceError
  /\ Backend.history w'
     = Backend.history (Backend.loaded w)
       ++ [mkChatMessage user text (Date_now E (Backend.clockReads w))]
  /\ Backend.stored_history w' = Backend.stored_history w
  /\ filter is_get (Backend.storageLog w')
     = filter is_get (Backend.storageLog (Backend.loaded w))
  /\ Backend.storageLog w' = Backend.storageLog (Backend.loaded w).
Proof.
  intros R A w'. subst w'. unfold after, outcome.
  rewrite (BackendSpec.backend_chat_run E w text R).
  cbv zeta. rewrite BackendSpec.backend_loaded_aiLog, A.
  cbn [fst snd Backend.history Backend.stored_history Backend.storageLog].
  unfold Backend.userTurn. rewrite BackendSpec.backend_loaded_clockReads.
  repeat split.
  unfold Backend.loaded. destruct (length (Backend.history w) =? 0)%nat; reflexivity.
Qed.

Lemma backend_rejected_call_escapes_fetch_witness :
  outcome (Backend.fetch Sample.offline (Backend.sendMessage (js "Hi")))
          Sample.backendBusy = Thrown InferenceError
  /\ Backend.history
       (after (Backend.fetch Sample.offline (Backend.sendMessage (js "Hi")))
              Sample.backendBusy)
     = [Sample.hello; Sample.welcome]
       ++ [mkChatMessage user (js "Hi") (Sample.epoch + 2)].
Proof.
  destruct (backend_rejected_call_escapes_fetch Sample.offline Sample.backendBusy
              (js "Hi")) as (O & H & _).
  - intro n. reflexivity.
  - reflexivity.
  - split; [exact O | exact H].
Defined.

(** X18: a run of the backend workflow whose model call resolves and whose
    storage does not fail asks the model once with a budget of 256 tokens,
    appends exactly one briefing to the history, the marker followed by the
    (never empty) summary, persists the history and returns 'Briefing
    complete'. *)
Theorem backend_run_appends_one_briefing (E : Env) (w : Backend.World)
        (r : AiResponse) :
  reliable E ->
  let call := mkAiCall llama
                [ mkAiMessage system (js "You are a financial coach for students.");
                  mkAiMessage user BackendBriefing.prompt ] 256 (7 # 10) in
  AI_run E (length (Backend.aiLog w)) call = AiResolves r ->
  let w' := after (BackendBriefing.run E) w in
  exists s,
    s <> []
    /\ outcome (BackendBriefing.run E) w = Returned (js "Briefing complete")
    /\ Backend.history w'
       = Backend.history (Backend.loaded w)
         ++ [mkChatMessage assistant (Backend.briefingMarker ++ s)
                           (Date_now E (Backend.clockReads w))]
    /\ Backend.stored_history w' = Some (Backend.history w')
    /\ Backend.aiLog w' = Backend.aiLog w ++ [call].
Proof.
  intros R call A w'. subst w'.
  exists (or_string (Backend.response_of r) (js "No summary generated.")).
  split; [apply or_string_nonempty; discriminate |].
  assert (Run :
    BackendBriefing.run E w
    = (Returned (js "Briefing complete"),
       let w1 := Backend.log_ai call w in
       let h := Backend.history (Backend.loaded w1)
                ++ [Backend.briefingTurn E
                      (or_string (Backend.response_of r)
                                 (js "No summary generated."))
                      (Backend.loaded w1)] in
       Backend.set_stored_history h
         (Backend.log_storage (Put "history")
            (Backend.set_history h (Backend.tick (Backend.loaded w1)))))).
  { unfold BackendBriefing.run, BackendBriefing.analyze_news, Backend.runLLM.
    fold call. unfold bind at 1 2. rewrite A. unfold ret at 1.
    unfold bind at 1. unfold Backend.inject_briefing. unfold bind at 1.
    rewrite (BackendSpec.backend_inject_reliable E _ _ R). reflexivity. }
  unfold after, outcome. rewrite Run. cbv zeta.
  rewrite backend_loaded_log_ai.
  cbn [fst snd Backend.history Backend.stored_history Backend.aiLog
       Backend.set_stored_history Backend.log_storage Backend.set_history
       Backend.tick Backend.log_ai].
  unfold Backend.briefingTurn. cbn [Backend.clockReads Backend.log_ai].
  rewrite BackendSpec.backend_loaded_clockReads, BackendSpec.backend_loaded_aiLog.
  repeat split.
Qed.

Lemma backend_run_appends_one_briefing_witness :
  exists s,
    s <> []
    /\ Backend.history (after (BackendBriefing.run Sample.quiet) Sample.backendBusy)
       = [Sample.hello; Sample.welcome]
         ++ [mkChatMessage assistant (Backend.briefingMarker ++ s) (Sample.epoch + 2)].
Proof.
  destruct (backend_run_appends_one_briefing Sample.quiet Sample.backendBusy
              (AiText (Some (js "Track your spending first."))))
    as (s & NE & _ & H & _).
  - intro n. reflexivity.
  - reflexivity.
  - exists s. split; [exact NE | exact H].
Defined.

(* ------------------------------------------------------------------------- *)
(** ** Properties of the routes of src/index.ts *)



(** X20: POST /api/chat hands the answer of the object on unchanged, status
    and body: the 400 of a blank message, the 500 of a rejected model call and
    the 200 with the reply all reach the client as the object gave them.  A
    body that is not JSON never reaches the object. *)
Theorem api_chat_forwards_answer (E : Env) (w : Worker.World) (b : Worker.Body) :
  reliable E ->
  Api.chat E (Some b) w
  = Worker.fetch E (Worker.mkRequest "POST" "/chat" (Some b)) w
  /\ Api.chat E None w = (Thrown SyntaxError, w).
Proof.
  intros R. split; [| reflexivity].
  unfold Api.chat, Api.req_json. unfold bind at 1. unfold ret at 1.
  unfold bind at 1.
  set (request := Worker.mkRequest "POST" "/chat" (Some b)).
  rewrite (WorkerSpec.fetch_loaded E request w R).
  change (Worker.dispatch E request) with (Worker.handleChat E request).
  set (w0 := Worker.loaded w).
  assert (B : Worker.body request = Some b) by reflexivity.
  destruct (option_map trim (Worker.message b)) as [[| c r] |] eqn:T.
  - rewrite (try_catch_returned _ _ _ _ _
               (WorkerSpec.handleChat_blank E request w0 b B (or_intror T))).
    reflexivity.
  - destruct (AI_run E (length (Worker.aiLog w0)) (Worker.chatCall E (c :: r) w0))
      as [resp |] eqn:A.
    + rewrite (try_catch_returned _ _ _ _ _
                 (WorkerSpec.handleChat_resolves E request w0 b c r resp R B T A)).
      reflexivity.
    + rewrite (try_catch_thrown _ _ _ _ _
                 (WorkerSpec.handleChat_rejects E request w0 b c r B T A)).
      reflexivity.
  - rewrite (try_catch_returned _ _ _ _ _
               (WorkerSpec.handleChat_blank E request w0 b B (or_introl T))).
    reflexivity.
Qed.

Lemma api_chat_forwards_answer_witness :
  outcome (Api.chat Sample.quiet
             (Some (Worker.mkBody (Some (js "   ")) None None emptyProfile)))
          Sample.busy
  = Returned (mkResponse 400 (ErrorJson "Message is required")).
Proof.
  destruct (api_chat_forwards_answer Sample.quiet Sample.busy
              (Worker.mkBody (Some (js "   ")) None None emptyProfile))
    as [H _].
  - intro n. reflexivity.
  - unfold outcome. rewrite H. reflexivity.
Defined.

(* ------------------------------------------------------------------------- *)
(** ** Properties of the goal list of the profile form *)

Lemma filter_other_past {A} index i (l : list A) :
  (index < i)%nat -> ProfileModal.filter_other index i l = l.
Proof.
  revert i. induction l as [| x l IH]; intros i H; cbn; [reflexivity |].
  destruct (Nat.eqb_spec i index) as [-> | _]; [lia |].
  rewrite IH by lia. reflexivity.
Qed.

Lemma filter_other_at {A} index i (l : list A) :
  (i <= index)%nat ->
  ProfileModal.filter_other index i l
  = firstn (index - i) l ++ skipn (S (index - i)) l.
Proof.
  revert i. induction l as [| x l IH]; intros i H; cbn.
  - destruct (index - i)%nat; reflexivity.
  - destruct (Nat.eqb_spec i index) as [-> | N].
    + rewrite Nat.sub_diag. cbn. apply filter_other_past. lia.
    + rewrite IH by lia.
      replace (index - i)%nat with (S (index - S i)) by lia.
      reflexivity.
Qed.

(** X21: adding a goal whose text is blank changes nothing; otherwise the
    trimmed text is appended to the list of goals (a new list when there was
    none), the input is emptied and no other field of the profile changes. *)
Theorem addGoal_appends_trimmed_goal (s : ProfileModal.State) :
  let p := ProfileModal.profile s in
  let old := match financialGoals p with Some g => g | None => [] end in
  let s' := ProfileModal.addGoal s in
  let p' := ProfileModal.profile s' in
  (trim (ProfileModal.newGoal s) = [] -> s' = s)
  /\ (trim (ProfileModal.newGoal s) <> [] ->
      financialGoals p' = Some (old ++ [trim (ProfileModal.newGoal s)])
      /\ ProfileModal.newGoal s' = []
      /\ monthlyIncome p' = monthlyIncome p /\ totalDebt p' = totalDebt p
      /\ savingsGoal p' = savingsGoal p /\ emergencyFund p' = emergencyFund p
      /\ lastUpdated p' = lastUpdated p).
Proof.
  intros p old s' p'. subst p' s'. unfold ProfileModal.addGoal.
  destruct (trim (ProfileModal.newGoal s)) as [| c r] eqn:T; cbn.
  - split; [reflexivity | intros H; contradiction].
  - split; [intros H; discriminate H |]. intros _. repeat split.
Qed.

Lemma addGoal_appends_trimmed_goal_witness :
  financialGoals
    (ProfileModal.profile
       (ProfileModal.addGoal (ProfileModal.mkState Sample.debtOnly (js " Save "))))
  = Some [js "Save"].
Proof.
  destruct (addGoal_appends_trimmed_goal
              (ProfileModal.mkState Sample.debtOnly (js " Save "))) as [_ H].
  destruct H as [G _].
  - vm_compute. discriminate.
  - rewrite G. reflexivity.
Defined.

(** X22: removing the goal at an index drops exactly that entry and keeps
    the others in order; an index past the end removes nothing; without a
    list of goals nothing changes; and removing the entry that addGoal just
    appended gives back the list as it was. *)
Theorem removeGoal_drops_one_entry (s : ProfileModal.State) (index : nat)
        (l : list jsstring) :
  financialGoals (ProfileModal.profile s) = Some l ->
  let goals_after i st :=
    financialGoals (ProfileModal.profile (ProfileModal.removeGoal i st)) in
  goals_after index s = Some (firstn index l ++ skipn (S index) l)
  /\ (length l <= index -> goals_after index s = Some l)%nat
  /\ ((index < length l)%nat ->
      exists l', goals_after index s = Some l' /\ S (length l') = length l)
  /\ (trim (ProfileModal.newGoal s) <> [] ->
      goals_after (length l) (ProfileModal.addGoal s) = Some l).
Proof.
  intros G goals_after. subst goals_after. cbv beta.
  assert (Main : forall i,
            ProfileModal.filter_other i 0 l = firstn i l ++ skipn (S i) l).
  { intros i. rewrite (filter_other_at i 0 l) by lia.
    rewrite Nat.sub_0_r. reflexivity. }
  unfold ProfileModal.removeGoal. cbn [ProfileModal.profile
    ProfileModal.with_goals financialGoals]. rewrite G. cbn [option_map].
  split; [rewrite Main; reflexivity |].
  split.
  { intros L. rewrite Main, firstn_all2 by lia.
    rewrite skipn_all2 by lia. rewrite app_nil_r. reflexivity. }
  split.
  { intros L. eexists. split; [reflexivity |].
    rewrite Main, length_app, length_firstn, length_skipn. lia. }
  intros T. unfold ProfileModal.addGoal.
  destruct (trim (ProfileModal.newGoal s)) as [| c r]; [contradiction |].
  cbn [negb truthy_string ProfileModal.profile ProfileModal.with_goals
       financialGoals option_map]. rewrite G.
  rewrite (filter_other_at (length l) 0) by lia. rewrite Nat.sub_0_r.
  rewrite firstn_app, Nat.sub_diag, firstn_all. cbn [firstn].
  rewrite skipn_all2 by (rewrite length_app; cbn; lia).
  rewrite !app_nil_r. reflexivity.
Qed.

Lemma removeGoal_drops_one_entry_witness :
  financialGoals
    (ProfileModal.profile
       (ProfileModal.removeGoal 1
          (ProfileModal.mkState
             (mkProfile None None None None
                        (Some [js "Save"; js "Invest"; js "Learn"]) None) [])))
  = Some [js "Save"; js "Learn"].
Proof.
  destruct (removeGoal_drops_one_entry
              (ProfileModal.mkState
                 (mkProfile None None None None
                            (Some [js "Save"; js "Invest"; js "Learn"]) None) [])
              1 [js "Save"; js "Invest"; js "Learn"] eq_refl) as [H _].
  exact H.
Defined.
